(* ===================================================================== *)
(* licensespring-mcp: authentication header construction                 *)
(*                                                                       *)
(* A shallow embedding of src/utils/auth.ts and src/utils/http.ts and    *)
(* the properties of the signing string, the Authorization header, the   *)
(* three operation modes of the License API client and the validation    *)
(* of the credentials.                                                   *)
(*                                                                       *)
(* JavaScript strings are modelled as Rocq strings holding their UTF-8   *)
(* encoding (the encoding Node's hmac.update applies to a string);       *)
(* an optional parameter `x?: string` is an `option string`.             *)
(* ===================================================================== *)

From Stdlib Require Import ZArith Ascii String.
From stdpp Require Import base strings gmap list.

Local Open Scope Z_scope.

(* The double quote character, written by its code. *)
Definition dq : string := String "034"%char EmptyString.
(* The line feed of the template literal escape \n. *)
Definition nl : string := String "010"%char EmptyString.

(* ===================================================================== *)
(* Node's crypto module, as far as auth.ts uses it:                      *)
(*   crypto.createHmac('sha256', key).update(data).digest('base64')      *)
(* SHA-256 follows FIPS 180-4, HMAC follows RFC 2104, base64 RFC 4648.   *)
(* Bytes and 32-bit words are Z with the wrap-around written out.        *)
(* ===================================================================== *)
Module crypto.

Definition wrap32 (x : Z) : Z := x mod 2 ^ 32.
Definition add32 (x y : Z) : Z := wrap32 (x + y).
Definition not32 (x : Z) : Z := Z.lxor x 0xFFFFFFFF.
Definition rotr (n x : Z) : Z :=
  Z.lor (Z.shiftr x n) (wrap32 (Z.shiftl x (32 - n))).

Definition Ch (x y z : Z) : Z := Z.lxor (Z.land x y) (Z.land (not32 x) z).
Definition Maj (x y z : Z) : Z :=
  Z.lxor (Z.lxor (Z.land x y) (Z.land x z)) (Z.land y z).
Definition bsig0 (x : Z) : Z := Z.lxor (Z.lxor (rotr 2 x) (rotr 13 x)) (rotr 22 x).
Definition bsig1 (x : Z) : Z := Z.lxor (Z.lxor (rotr 6 x) (rotr 11 x)) (rotr 25 x).
Definition ssig0 (x : Z) : Z := Z.lxor (Z.lxor (rotr 7 x) (rotr 18 x)) (Z.shiftr x 3).
Definition ssig1 (x : Z) : Z := Z.lxor (Z.lxor (rotr 17 x) (rotr 19 x)) (Z.shiftr x 10).

(* Round constants: the first 32 bits of the fractional parts of the cube
   roots of the first 64 primes. *)
Definition K256 : list Z :=
  [ 0x428A2F98; 0x71374491; 0xB5C0FBCF; 0xE9B5DBA5;
    0x3956C25B; 0x59F111F1; 0x923F82A4; 0xAB1C5ED5;
    0xD807AA98; 0x12835B01; 0x243185BE; 0x550C7DC3;
    0x72BE5D74; 0x80DEB1FE; 0x9BDC06A7; 0xC19BF174;
    0xE49B69C1; 0xEFBE4786; 0x0FC19DC6; 0x240CA1CC;
    0x2DE92C6F; 0x4A7484AA; 0x5CB0A9DC; 0x76F988DA;
    0x983E5152; 0xA831C66D; 0xB00327C8; 0xBF597FC7;
    0xC6E00BF3; 0xD5A79147; 0x06CA6351; 0x14292967;
    0x27B70A85; 0x2E1B2138; 0x4D2C6DFC; 0x53380D13;
    0x650A7354; 0x766A0ABB; 0x81C2C92E; 0x92722C85;
    0xA2BFE8A1; 0xA81A664B; 0xC24B8B70; 0xC76C51A3;
    0xD192E819; 0xD6990624; 0xF40E3585; 0x106AA070;
    0x19A4C116; 0x1E376C08; 0x2748774C; 0x34B0BCB5;
    0x391C0CB3; 0x4ED8AA4A; 0x5B9CCA4F; 0x682E6FF3;
    0x748F82EE; 0x78A5636F; 0x84C87814; 0x8CC70208;
    0x90BEFFFA; 0xA4506CEB; 0xBEF9A3F7; 0xC67178F2 ].

(* The eight working variables, also the chaining value. *)
Record regs : Type := Regs { ra : Z; rb : Z; rc : Z; rd : Z; re : Z; rf : Z; rg : Z; rh : Z }.

(* Initial hash value: fractional parts of the square roots of the first
   eight primes. *)
Definition IV : regs :=
  Regs 0x6A09E667 0xBB67AE85 0x3C6EF372 0xA54FF53A
       0x510E527F 0x9B05688C 0x1F83D9AB 0x5BE0CD19.

Definition be32 (bs : list Z) : Z :=
  fold_left (fun acc b => acc * 256 + b) bs 0.

Definition word_bytes (x : Z) : list Z :=
  [ Z.land (Z.shiftr x 24) 255; Z.land (Z.shiftr x 16) 255;
    Z.land (Z.shiftr x 8) 255; Z.land x 255 ].

Definition block_words (blk : list Z) : list Z :=
  map (fun i => be32 (take 4 (drop (4 * i) blk))) (seq 0 16).

(* Message schedule: W_t for 16 <= t < 64 appended one at a time. *)
Fixpoint schedule (n : nat) (ws : list Z) : list Z :=
  match n with
  | O => ws
  | S n' =>
      let t := length ws in
      let wt := add32 (add32 (ssig1 (nth (t - 2) ws 0)) (nth (t - 7) ws 0))
                      (add32 (ssig0 (nth (t - 15) ws 0)) (nth (t - 16) ws 0)) in
      schedule n' (ws ++ [wt])
  end.

Definition round (s : regs) (kw : Z * Z) : regs :=
  let t1 := add32 (add32 (add32 (rh s) (bsig1 (re s)))
                         (add32 (Ch (re s) (rf s) (rg s)) (fst kw))) (snd kw) in
  let t2 := add32 (bsig0 (ra s)) (Maj (ra s) (rb s) (rc s)) in
  Regs (add32 t1 t2) (ra s) (rb s) (rc s) (add32 (rd s) t1) (re s) (rf s) (rg s).

Definition compress (h : regs) (blk : list Z) : regs :=
  let ws := schedule 48 (block_words blk) in
  let s := fold_left round (combine K256 ws) h in
  Regs (add32 (ra h) (ra s)) (add32 (rb h) (rb s)) (add32 (rc h) (rc s))
       (add32 (rd h) (rd s)) (add32 (re h) (re s)) (add32 (rf h) (rf s))
       (add32 (rg h) (rg s)) (add32 (rh h) (rh s)).

(* Padding: 0x80, zero bytes up to 56 mod 64, then the bit length on
   eight bytes, big endian. *)
Definition pad (msg : list Z) : list Z :=
  let l := Z.of_nat (length msg) in
  msg ++ [0x80] ++ repeat 0 (Z.to_nat ((55 - l) mod 64))
      ++ word_bytes (Z.shiftr (8 * l) 32) ++ word_bytes (8 * l).

Fixpoint blocks (n : nat) (bs : list Z) : list (list Z) :=
  match n with
  | O => []
  | S n' => take 64 bs :: blocks n' (drop 64 bs)
  end.

Definition digest_bytes (h : regs) : list Z :=
  word_bytes (ra h) ++ word_bytes (rb h) ++ word_bytes (rc h) ++ word_bytes (rd h)
  ++ word_bytes (re h) ++ word_bytes (rf h) ++ word_bytes (rg h) ++ word_bytes (rh h).

Definition sha256 (msg : list Z) : list Z :=
  let p := pad msg in
  digest_bytes (fold_left compress (blocks (length p / 64) p) IV).

(* RFC 2104 with block size 64: a longer key is hashed first. *)
Definition hmac_sha256 (key msg : list Z) : list Z :=
  let k0 := if (64 <? length key)%nat then sha256 key else key in
  let k := k0 ++ repeat 0 (64 - length k0)%nat in
  sha256 (map (Z.lxor 0x5C) k ++ sha256 (map (Z.lxor 0x36) k ++ msg)).

(* base64 with the standard alphabet and = padding. *)
Definition alphabet : list ascii :=
  list_ascii_of_string
    "ABCDEFGHIJKLMNOPQRSTUVWXYZabcdefghijklmnopqrstuvwxyz0123456789+/".

Definition b64 (i : Z) : ascii :=
  nth (Z.to_nat (Z.land i 63)) alphabet "="%char.

Fixpoint base64 (bs : list Z) : list ascii :=
  match bs with
  | [] => []
  | [a] => [ b64 (Z.shiftr a 2); b64 (Z.shiftl a 4); "="%char; "="%char ]
  | [a; b] =>
      [ b64 (Z.shiftr a 2); b64 (Z.lor (Z.shiftl a 4) (Z.shiftr b 4));
        b64 (Z.shiftl b 2); "="%char ]
  | a :: b :: c :: rest =>
      b64 (Z.shiftr a 2) :: b64 (Z.lor (Z.shiftl a 4) (Z.shiftr b 4))
      :: b64 (Z.lor (Z.shiftl b 2) (Z.shiftr c 6)) :: b64 c :: base64 rest
  end.

(* A JavaScript string handed to the hash is encoded as UTF-8; the model's
   strings already hold those bytes. *)
Definition utf8 (s : string) : list Z :=
  map (fun c => Z.of_N (N_of_ascii c)) (list_ascii_of_string s).

(* createHmac('sha256', key).update(data).digest('base64') *)
Definition hmac_sha256_base64 (key data : string) : string :=
  string_of_list_ascii (base64 (hmac_sha256 (utf8 key) (utf8 data))).

Definition hex (bs : list Z) : string :=
  let d := list_ascii_of_string "0123456789abcdef" in
  string_of_list_ascii
    (flat_map (fun b => [ nth (Z.to_nat (b / 16)) d "?"%char;
                          nth (Z.to_nat (b mod 16)) d "?"%char ]) bs).

End crypto.

(* ===================================================================== *)
(* The built-in Date: a time value is the number of milliseconds since   *)
(* the epoch; toUTCString renders it as                                  *)
(*   Www, dd Mmm yyyy hh:mm:ss GMT   (ECMAScript, Date.prototype)        *)
(* ===================================================================== *)
Module Date.

Definition digit (n : Z) : string :=
  String (ascii_of_N (Z.to_N (48 + n mod 10))) EmptyString.

(* Decimal digits of a natural number; the fuel bounds their count. *)
Fixpoint decimal (fuel : nat) (n : Z) : string :=
  match fuel with
  | O => digit n
  | S f => if n <? 10 then digit n else decimal f (n / 10) +:+ digit n
  end.

(* At least [width] digits, zeros added in front. *)
Definition pad_digits (width : nat) (n : Z) : string :=
  let s := decimal 20 n in
  string_of_list_ascii (repeat "0"%char (width - String.length s)) +:+ s.

Definition day_names : list string :=
  ["Sun"; "Mon"; "Tue"; "Wed"; "Thu"; "Fri"; "Sat"]%string.
Definition month_names : list string :=
  ["Jan"; "Feb"; "Mar"; "Apr"; "May"; "Jun";
   "Jul"; "Aug"; "Sep"; "Oct"; "Nov"; "Dec"]%string.

(* Year, month (1..12) and day of the month of a day number counted from
   1970-01-01, in the proleptic Gregorian calendar. *)
Definition civil (days : Z) : Z * Z * Z :=
  let z := days + 719468 in
  let era := z / 146097 in
  let doe := z - era * 146097 in
  let yoe := (doe - doe / 1460 + doe / 36524 - doe / 146096) / 365 in
  let doy := doe - (365 * yoe + yoe / 4 - yoe / 100) in
  let mp := (5 * doy + 2) / 153 in
  let d := doy - (153 * mp + 2) / 5 + 1 in
  let m := if mp <? 10 then mp + 3 else mp - 9 in
  let y := yoe + era * 400 + (if m <=? 2 then 1 else 0) in
  (y, m, d).

Definition toUTCString (tv : Z) : string :=
  let secs := tv / 1000 in
  let days := secs / 86400 in
  let sod := secs mod 86400 in
  let '(y, m, d) := civil days in
  nth (Z.to_nat ((days + 4) mod 7)) day_names EmptyString +:+ ", "
  +:+ pad_digits 2 d +:+ " "
  +:+ nth (Z.to_nat (m - 1)) month_names EmptyString +:+ " "
  +:+ (if y <? 0 then "-" else EmptyString) +:+ pad_digits 4 (Z.abs y) +:+ " "
  +:+ pad_digits 2 (sod / 3600) +:+ ":" +:+ pad_digits 2 (sod / 60 mod 60) +:+ ":"
  +:+ pad_digits 2 (sod mod 60) +:+ " GMT".

End Date.

(* ===================================================================== *)
(* Effects.  The code reads the clock (new Date()), reads process.env,   *)
(* writes to the console, computes HMAC digests and throws.  A world     *)
(* holds the environment, the clock as the sequence of its successive    *)
(* readings, and the trace of what happened so far.                      *)
(* ===================================================================== *)

Inductive event : Type :=
| ClockRead (tv : Z)                       (* new Date() *)
| HmacDigest (key data digest : string)    (* createHmac(..).update(..).digest(..) *)
| ConsoleLog (msg : string)                (* console.log *)
| ConsoleWarn (msg : string).              (* console.warn *)

Record World : Type := mkWorld {
  env : gmap string string;     (* process.env *)
  clock : nat -> Z;             (* the n-th reading of the clock, in ms *)
  reads : nat;                  (* how many readings were taken *)
  trace : list event
}.

Inductive outcome (A : Type) : Type :=
| Ok (a : A)
| Thrown (message : string).    (* throw new Error(message) *)
Arguments Ok {A} a.
Arguments Thrown {A} message.

Definition M (A : Type) : Type := World -> outcome A * World.

Definition ret {A} (a : A) : M A := fun w => (Ok a, w).
Definition bind {A B} (m : M A) (k : A -> M B) : M B :=
  fun w => match m w with
           | (Ok a, w') => k a w'
           | (Thrown e, w') => (Thrown e, w')
           end.
Definition throw {A} (message : string) : M A := fun w => (Thrown message, w).

Declare Scope js_scope.
Delimit Scope js_scope with js.
Notation "'let*' x := m 'in' k" := (bind m (fun x => k))
  (at level 10, x pattern, m at level 100, k at level 200) : js_scope.
Notation "m ';;;' k" := (bind m (fun _ => k))
  (at level 100, k at level 200, right associativity) : js_scope.
Local Open Scope js_scope.

Definition emit (e : event) : M unit :=
  fun w => (Ok tt, mkWorld (env w) (clock w) (reads w) (trace w ++ [e])).

(* new Date(): the next reading of the clock. *)
Definition newDate : M Z :=
  fun w => let tv := clock w (reads w) in
           (Ok tv, mkWorld (env w) (clock w) (S (reads w)) (trace w ++ [ClockRead tv])).

(* process.env[name] *)
Definition getenv (name : string) : M (option string) :=
  fun w => (Ok (env w !! name), w).

Definition console_log (msg : string) : M unit := emit (ConsoleLog msg).
Definition console_warn (msg : string) : M unit := emit (ConsoleWarn msg).

(* crypto.createHmac('sha256', key), update(data), digest('base64') *)
Definition createHmac_update_digest (key data : string) : M string :=
  let d := crypto.hmac_sha256_base64 key data in
  emit (HmacDigest key data d) ;;; ret d.

(* ===================================================================== *)
(* JavaScript values of type string | undefined                          *)
(* ===================================================================== *)

(* Truthiness: undefined and the empty string are falsy. *)
Definition truthy (o : option string) : bool :=
  match o with
  | Some (String _ _) => true
  | _ => false
  end.

(* ${x} in a template literal. *)
Definition interp (o : option string) : string :=
  match o with
  | Some s => s
  | None => "undefined"
  end.

(* s.startsWith(p) *)
Definition startsWith (s p : string) : bool := String.prefix p s.

(* s.includes(p) *)
Fixpoint includes (s p : string) : bool :=
  String.prefix p s ||
  match s with
  | EmptyString => false
  | String _ s' => includes s' p
  end.

(* ===================================================================== *)
(* src/utils/auth.ts                                                     *)
(* ===================================================================== *)

(* The local variable signingString of generateLicenseApiSignature. *)
Definition signingString (apiKey date : string)
    (licenseKey hardwareId : option string) : string :=
  let signingString := "licenseSpring" +:+ nl +:+ "date: " +:+ date in
  (* For offline operations, include license key and hardware ID *)
  if truthy licenseKey && truthy hardwareId
  then signingString +:+ nl +:+ interp licenseKey +:+ nl +:+ interp hardwareId
                     +:+ nl +:+ apiKey
  else signingString.

Definition generateLicenseApiSignature (sharedKey apiKey date : string)
    (licenseKey hardwareId : option string) : M string :=
  createHmac_update_digest sharedKey (signingString apiKey date licenseKey hardwareId).

Record AuthHeader : Type := mkAuthHeader { date : string; authorization : string }.

Definition generateLicenseApiAuthHeader (sharedKey apiKey : string)
    (licenseKey hardwareId : option string) : M AuthHeader :=
  let* now := newDate in
  let date := Date.toUTCString now in
  let* signature := generateLicenseApiSignature sharedKey apiKey date licenseKey hardwareId in
  let authorization :=
    "algorithm=" +:+ dq +:+ "hmac-sha256" +:+ dq +:+ ",headers=" +:+ dq +:+ "date" +:+ dq
    +:+ ",signature=" +:+ dq +:+ signature +:+ dq
    +:+ ",apikey=" +:+ dq +:+ apiKey +:+ dq in
  ret (mkAuthHeader date authorization).

Definition generateManagementApiAuthHeader (apiKey : string) : string :=
  "Api-Key " +:+ apiKey.

Definition validateLicenseApiAuth (apiKey sharedKey : option string) : M unit :=
  match apiKey with
  | None | Some EmptyString =>
      throw "LICENSE_API_KEY is required as the primary authentication method for License API operations"
  | Some apiKey =>
      (* Determine operation mode based on available credentials *)
      let* NODE_ENV := getenv "NODE_ENV" in
      let isTestMode := startsWith apiKey "test-" || bool_decide (NODE_ENV = Some "test"%string) in
      let hasSharedKey := truthy sharedKey && negb isTestMode in
      if isTestMode then
        console_warn "⚠️  Running in TEST MODE - API calls will use mock authentication" ;;;
        console_warn "   Using LICENSE_API_KEY for test authentication"
      else if hasSharedKey then
        console_log "✅ License API authentication configured with LICENSE_API_KEY (primary) and LICENSE_SHARED_KEY (enhanced security)"
      else
        console_log "✅ License API authentication configured with LICENSE_API_KEY (primary authentication method)" ;;;
        console_warn "ℹ️  LICENSE_SHARED_KEY not provided - this is optional for organizations using shared API settings" ;;;
        console_warn "   The MCP server will use LICENSE_API_KEY as the primary authentication method" ;;;
        console_warn "   If your organization requires shared key authentication, please provide LICENSE_SHARED_KEY"
  end.

Definition validateManagementApiAuth (apiKey : option string) : M unit :=
  (* Allow test mode with mock credentials *)
  let* NODE_ENV := getenv "NODE_ENV" in
  let isTestMode :=
    match apiKey with Some k => startsWith k "test-" | None => false end
    || bool_decide (NODE_ENV = Some "test"%string) in
  if negb (truthy apiKey) then
    throw "MANAGEMENT_API_KEY is required for Management API operations"
  else if isTestMode then
    console_warn "⚠️  Running in test mode - API calls will fail but server will start"
  else ret tt.

(* ===================================================================== *)
(* src/utils/http.ts                                                     *)
(* ===================================================================== *)

(* The part of an axios request configuration the interceptor touches. *)
Record AxiosRequestConfig : Type := mkConfig {
  url : string;
  headers : gmap string string
}.

(* config.headers[name] = value *)
Definition setHeader (name value : string) (config : AxiosRequestConfig)
    : AxiosRequestConfig :=
  mkConfig (url config) (<[name := value]> (headers config)).

Record LicenseApiClient : Type := mkLicenseApiClient {
  client : string * gmap string string;   (* axios.create: baseURL and headers *)
  apiKey : string;
  sharedKey : option string;
  isTestMode : bool;
  hasSharedKey : bool
}.

(* this.sharedKey! : the assertion is erased; an undefined key makes
   createHmac throw a TypeError.  The interceptor reaches it only when
   hasSharedKey holds, and the constructor sets hasSharedKey only for a
   shared key that is a non-empty string. *)
Definition nonNull (o : option string) : M string :=
  match o with
  | Some s => ret s
  | None => throw "The key argument must be of type string"
  end.

(* constructor(baseURL, apiKey, sharedKey?) *)
Definition new_LicenseApiClient (baseURL apiKey : string) (sharedKey : option string)
    : M LicenseApiClient :=
  let* NODE_ENV := getenv "NODE_ENV" in
  let isTestMode := startsWith apiKey "test-" || bool_decide (NODE_ENV = Some "test"%string) in
  let hasSharedKey := truthy sharedKey && negb isTestMode in
  let client :=
    (baseURL,
     ({[ "Content-Type" := "application/json";
         "Accept" := "application/json;charset=utf-8";
         "User-Agent" := "LicenseSpring-MCP-Server/2.0.0" ]} : gmap string string))%string in
  ret (mkLicenseApiClient client apiKey sharedKey isTestMode hasSharedKey).

(* The request interceptor installed by the constructor. *)
Definition requestInterceptor (this : LicenseApiClient) (config : AxiosRequestConfig)
    : M AxiosRequestConfig :=
  if isTestMode this then
    (* Test mode: use mock headers with API key *)
    let* now := newDate in
    let config := setHeader "Date" (Date.toUTCString now) config in
    ret (setHeader "Authorization"
           ("algorithm=" +:+ dq +:+ "hmac-sha256" +:+ dq +:+ ",headers=" +:+ dq +:+ "date" +:+ dq
            +:+ ",signature=" +:+ dq +:+ "test-signature" +:+ dq
            +:+ ",apikey=" +:+ dq +:+ apiKey this +:+ dq) config)
  else if hasSharedKey this then
    (* Enhanced security mode: API key with HMAC signature using shared key *)
    let* key := nonNull (sharedKey this) in
    let* r := generateLicenseApiAuthHeader key (apiKey this) None None in
    let config := setHeader "Date" (date r) config in
    ret (setHeader "Authorization" (authorization r) config)
  else
    (* Standard mode: API key as primary authentication method *)
    let* now := newDate in
    let config := setHeader "Date" (Date.toUTCString now) config in
    ret (setHeader "Authorization" ("apikey=" +:+ dq +:+ apiKey this +:+ dq) config).

Record ManagementApiClient : Type := mkManagementApiClient {
  mclient : string * gmap string string;
  mapiKey : string
}.

Definition new_ManagementApiClient (baseURL apiKey : string) : ManagementApiClient :=
  mkManagementApiClient
    (baseURL,
     ({[ "Content-Type" := "application/json";
         "Accept" := "application/json";
         "Authorization" := generateManagementApiAuthHeader apiKey ]}
        : gmap string string))%string
    apiKey.

(* The three branches of the interceptor, named as the documentation does. *)
Inductive Mode : Type := TestMode | EnhancedMode | LimitedMode.

Definition mode (this : LicenseApiClient) : Mode :=
  if isTestMode this then TestMode
  else if hasSharedKey this then EnhancedMode
  else LimitedMode.

(* --------------------------------------------------------------------- *)
(* Earlier revisions kept in the repository                              *)
(* --------------------------------------------------------------------- *)
Module Earlier.

(* validateLicenseApiAuth of the revision in which the shared key was
   still mandatory. *)
Definition validateLicenseApiAuth (apiKey sharedKey : option string) : M unit :=
  if negb (truthy apiKey) then
    throw "LICENSE_API_KEY is required for License API operations"
  else if negb (truthy sharedKey) then
    throw "LICENSE_SHARED_KEY is required for License API operations"
  else ret tt.

(* The interceptor of the client of that revision: sharedKey is a
   mandatory string and every request is signed. *)
Definition requestInterceptor (apiKey sharedKey : string) (config : AxiosRequestConfig)
    : M AxiosRequestConfig :=
  let* r := generateLicenseApiAuthHeader sharedKey apiKey None None in
  let config := setHeader "Date" (date r) config in
  ret (setHeader "Authorization" (authorization r) config).

End Earlier.

(* ===================================================================== *)
(* Vocabulary of the properties                                          *)
(* ===================================================================== *)

(* Running a computation: its result and the world it leaves behind. *)
Definition result {A} (m : M A) (w : World) : outcome A := fst (m w).
Definition after {A} (m : M A) (w : World) : World := snd (m w).

(* The events a computation added to the trace of [w]. *)
Definition added {A} (m : M A) (w : World) : list event :=
  drop (length (trace w)) (trace (after m w)).


(* A value in double quotes, and the attribute name="value". *)
Definition quoted (s : string) : string := dq +:+ s +:+ dq.
Definition attribute (name value : string) : string := name +:+ "=" +:+ quoted value.

(* A sample world: no environment variable set, a clock that starts at
   Mon, 19 Oct 2020 15:42:27 GMT and advances one second per reading. *)
Definition sample_world : World :=
  mkWorld ∅ (fun n => 1603122147000 + 1000 * Z.of_nat n) 0 [].

(* The same with NODE_ENV=test. *)
Definition sample_test_world : World :=
  mkWorld {[ "NODE_ENV"%string := "test"%string ]}
          (fun n => 1603122147000 + 1000 * Z.of_nat n) 0 [].

(* process.env.NODE_ENV === 'test' *)
Definition testEnv (w : World) : bool :=
  bool_decide (env w !! "NODE_ENV"%string = Some "test"%string).

(* The Authorization values of the three branches of the interceptor. *)
Definition placeholder_header (apiKey : string) : string :=
  String.concat ","
    [ attribute "algorithm" "hmac-sha256"; attribute "headers" "date";
      attribute "signature" "test-signature"; attribute "apikey" apiKey ].

Definition signed_header (sharedKey apiKey date : string) : string :=
  String.concat ","
    [ attribute "algorithm" "hmac-sha256"; attribute "headers" "date";
      attribute "signature"
        (crypto.hmac_sha256_base64 sharedKey
           ("licenseSpring" +:+ nl +:+ "date: " +:+ date));
      attribute "apikey" apiKey ].

Definition key_only_header (apiKey : string) : string := attribute "apikey" apiKey.

(* What validateLicenseApiAuth writes to the console in each mode. *)
Definition announcement (m : Mode) : list event :=
  match m with
  | TestMode =>
      [ ConsoleWarn "⚠️  Running in TEST MODE - API calls will use mock authentication";
        ConsoleWarn "   Using LICENSE_API_KEY for test authentication" ]
  | EnhancedMode =>
      [ ConsoleLog "✅ License API authentication configured with LICENSE_API_KEY (primary) and LICENSE_SHARED_KEY (enhanced security)" ]
  | LimitedMode =>
      [ ConsoleLog "✅ License API authentication configured with LICENSE_API_KEY (primary authentication method)";
        ConsoleWarn "ℹ️  LICENSE_SHARED_KEY not provided - this is optional for organizations using shared API settings";
        ConsoleWarn "   The MCP server will use LICENSE_API_KEY as the primary authentication method";
        ConsoleWarn "   If your organization requires shared key authentication, please provide LICENSE_SHARED_KEY" ]
  end.

(* Console output among the events. *)
Definition is_console (e : event) : bool :=
  match e with ConsoleLog _ | ConsoleWarn _ => true | _ => false end.

Definition is_warning (e : event) : bool :=
  match e with ConsoleWarn _ => true | _ => false end.

(* ===================================================================== *)
(* http.ts: handleApiError                                               *)
(*                                                                       *)
(* The argument is typed any; what the function reads of it is the       *)
(* response of a failed request (status, status text and the decoded     *)
(* body), whether a request was made, and the message.  The body and the *)
(* message are arbitrary JavaScript values.                              *)
(*                                                                       *)
(* The model covers the errors a rejected axios call hands over: an      *)
(* object (not undefined or null, on which reading error.response        *)
(* already throws) whose response, when there is one, has an integer     *)
(* status and a string status text.                                      *)
(* ===================================================================== *)

#[warnings="-register-all"]
Inductive value : Type :=
| JUndefined
| JNull
| JBool (b : bool)
| JNum (bits : Z)          (* a double, as its 64 bits (IEEE 754 binary64) *)
| JStr (s : string)
| JObj (fields : list (string * value))
| JArr (items : list value).

(* A double is 0 or -0 when the 63 bits below the sign are zero, and NaN
   when the exponent is all ones and the fraction is not zero. *)
Definition is_zero (bits : Z) : bool := bits mod 2 ^ 63 =? 0.
Definition is_nan (bits : Z) : bool :=
  (Z.shiftr bits 52 mod 2 ^ 11 =? 2047) && negb (bits mod 2 ^ 52 =? 0).

(* ToBoolean: undefined, null, false, 0, -0, NaN and the empty string are
   falsy. *)
Definition ToBoolean (v : value) : bool :=
  match v with
  | JUndefined | JNull => false
  | JBool b => b
  | JNum x => negb (is_zero x || is_nan x)
  | JStr EmptyString => false
  | JStr (String _ _) => true
  | JObj _ | JArr _ => true
  end.

(* typeof v === 'object' *)
Definition typeof_object (v : value) : bool :=
  match v with
  | JNull | JObj _ | JArr _ => true
  | _ => false
  end.

Fixpoint assoc (fields : list (string * value)) (name : string) : value :=
  match fields with
  | [] => JUndefined
  | (k, v) :: rest => if String.eqb k name then v else assoc rest name
  end.

(* v?.name and, for a value known to be truthy, v.name: only an object
   has the properties message, error and detail. *)
Definition prop (v : value) (name : string) : value :=
  match v with
  | JObj fields => assoc fields name
  | _ => JUndefined
  end.

(* a || b *)
Definition or_else (a b : value) : value := if ToBoolean a then a else b.

(* s.toLowerCase(), on the letters A to Z.  The result is only searched
   for the words auth, signature and unauthorized, and no character
   outside A to Z has a lower case form that completes one of them. *)
Definition lower_ascii (c : ascii) : ascii :=
  let n := N_of_ascii c in
  if ((65 <=? n) && (n <=? 90))%N then ascii_of_N (n + 32) else c.

Fixpoint toLowerCase (s : string) : string :=
  match s with
  | EmptyString => EmptyString
  | String c s' => String (lower_ascii c) (toLowerCase s')
  end.

(* ${n} for an integer n of at most 21 digits (a status code has three). *)
Definition integer_string (n : Z) : string :=
  if n <? 0 then "-" +:+ Date.decimal 20 (- n) else Date.decimal 20 n.

Module AxiosError.

Record Response : Type := mkResponse {
  status : Z;
  statusText : string;
  data : value
}.

Record t : Type := mk {
  response : option Response;   (* error.response *)
  request : bool;               (* whether error.request is set *)
  message : value               (* error.message *)
}.

End AxiosError.

(* The revision with the authentication guidance. *)
Definition handleApiError (error : AxiosError.t) : outcome value :=
  match AxiosError.response error with
  | Some response =>
      (* Server responded with error status *)
      let status := AxiosError.status response in
      let data := AxiosError.data response in
      (* Check for authentication-related errors *)
      if (status =? 401) || (status =? 403) then
        let errorMessage :=
          or_else (or_else (or_else (prop data "message") (prop data "error"))
                           (prop data "detail"))
                  (JStr (AxiosError.statusText response)) in
        match errorMessage with
        | JStr errorMessage =>
            (* If it looks like an authentication error, provide helpful guidance *)
            if includes (toLowerCase errorMessage) "auth"
               || includes (toLowerCase errorMessage) "signature"
               || includes (toLowerCase errorMessage) "unauthorized"
            then Ok (JStr (("Authentication failed: " +:+ errorMessage +:+ ". ")
                           +:+ "Verify your LICENSE_API_KEY is correct. "
                           +:+ "If your organization uses shared API settings, you may also need to provide LICENSE_SHARED_KEY for enhanced security."))
            else Ok (JStr ("Access denied: " +:+ errorMessage))
        | _ => Thrown "errorMessage.toLowerCase is not a function"
        end
      else
        (* Handle other error types *)
        let fallback :=
          Ok (JStr ("HTTP " +:+ integer_string status +:+ ": "
                    +:+ AxiosError.statusText response)) in
        if ToBoolean data && typeof_object data then
          if ToBoolean (prop data "message") then Ok (prop data "message")
          else if ToBoolean (prop data "error") then Ok (prop data "error")
          else if ToBoolean (prop data "detail") then Ok (prop data "detail")
          else fallback
        else fallback
  | None =>
      if AxiosError.request error then
        (* Request was made but no response received *)
        Ok (JStr "No response received from LicenseSpring API server. Please check your internet connection.")
      else
        (* Something else happened *)
        Ok (or_else (AxiosError.message error)
              (JStr "Unknown error occurred while communicating with LicenseSpring API"))
  end.

Module EarlierHttp.

(* handleApiError of the revision without the guidance. *)
Definition handleApiError (error : AxiosError.t) : outcome value :=
  match AxiosError.response error with
  | Some response =>
      let status := AxiosError.status response in
      let data := AxiosError.data response in
      let fallback :=
        Ok (JStr ("HTTP " +:+ integer_string status +:+ ": "
                  +:+ AxiosError.statusText response)) in
      if ToBoolean data && typeof_object data then
        if ToBoolean (prop data "message") then Ok (prop data "message")
        else if ToBoolean (prop data "error") then Ok (prop data "error")
        else if ToBoolean (prop data "detail") then Ok (prop data "detail")
        else fallback
      else fallback
  | None =>
      if AxiosError.request error then Ok (JStr "No response received from server")
      else Ok (or_else (AxiosError.message error) (JStr "Unknown error occurred"))
  end.

End EarlierHttp.

(* ===================================================================== *)
(* license-api-server.ts and management-api-server.ts: start-up          *)
(*                                                                       *)
(* The module body reads the configuration from process.env (after       *)
(* dotenv.config() has filled it), validates it and constructs the       *)
(* client.  console.error lines are collected apart from the trace.      *)
(* ===================================================================== *)

Inductive started (A : Type) : Type :=
| Running (apiClient : A)            (* the module body went on *)
| Exited (code : Z)                  (* process.exit(code) *)
| Uncaught (message : string).       (* an exception left the module body *)
Arguments Running {A} apiClient.
Arguments Exited {A} code.
Arguments Uncaught {A} message.

Record Startup (A : Type) : Type := mkStartup {
  process : started A;
  stderr : list (list string)        (* the arguments of each console.error *)
}.
Arguments mkStartup {A} process stderr.
Arguments process {A} _.
Arguments stderr {A} _.

(* process.env.NAME || fallback *)
Definition env_or (o : option string) (fallback : string) : string :=
  if truthy o then interp o else fallback.

Definition license_api_server (w : World) : Startup LicenseApiClient * World :=
  let LICENSE_API_URL := env_or (env w !! "LICENSE_API_URL"%string) "https://api.licensespring.com" in
  let LICENSE_API_KEY := env w !! "LICENSE_API_KEY"%string in
  let LICENSE_SHARED_KEY := env w !! "LICENSE_SHARED_KEY"%string in
  (* Validate configuration with better error handling *)
  match validateLicenseApiAuth LICENSE_API_KEY LICENSE_SHARED_KEY w with
  | (Thrown errorMessage, w1) =>
      (mkStartup (Exited 1)
         [ ["❌ Configuration Error:"; errorMessage];
           [EmptyString];
           ["Please check your environment variables:"];
           ["1. Copy .env.example to .env"];
           ["2. Set LICENSE_API_KEY to your LicenseSpring License API key"];
           ["3. Optionally set LICENSE_SHARED_KEY (required for premium tiers)"];
           [EmptyString];
           ["For more information, see the README.md file."] ]%string, w1)
  | (Ok _, w1) =>
      (* Create HTTP client *)
      match LICENSE_API_KEY with
      | Some key =>
          match new_LicenseApiClient LICENSE_API_URL key LICENSE_SHARED_KEY w1 with
          | (Ok apiClient, w2) => (mkStartup (Running apiClient) [], w2)
          | (Thrown e, w2) => (mkStartup (Uncaught e) [], w2)
          end
      | None =>
          (mkStartup (Uncaught "Cannot read properties of undefined (reading 'startsWith')") [],
           w1)
      end
  end.

Definition management_api_server (w : World) : Startup ManagementApiClient * World :=
  let MANAGEMENT_API_URL := env_or (env w !! "MANAGEMENT_API_URL"%string) "https://saas.licensespring.com" in
  let MANAGEMENT_API_KEY := env w !! "MANAGEMENT_API_KEY"%string in
  (* Validate configuration with better error handling *)
  match validateManagementApiAuth MANAGEMENT_API_KEY w with
  | (Thrown errorMessage, w1) =>
      (mkStartup (Exited 1)
         [ ["❌ Configuration Error:"; errorMessage];
           [EmptyString];
           ["Please check your environment variables:"];
           ["1. Copy .env.example to .env"];
           ["2. Set MANAGEMENT_API_KEY to your LicenseSpring Management API key"];
           [EmptyString];
           ["For more information, see the README.md file."] ]%string, w1)
  | (Ok _, w1) =>
      (* Create HTTP client *)
      (mkStartup (Running (new_ManagementApiClient MANAGEMENT_API_URL (interp MANAGEMENT_API_KEY))) [],
       w1)
  end.

(* ===================================================================== *)
(* Further vocabulary                                                    *)
(* ===================================================================== *)

Definition is_hmac (e : event) : bool :=
  match e with HmacDigest _ _ _ => true | _ => false end.

(* A string without line feed. *)
Definition one_line (s : string) : Prop := ~ In "010"%char (list_ascii_of_string s).

(* The text a lower-cased message is searched for. *)
Definition looks_like_auth (m : string) : bool :=
  includes (toLowerCase m) "auth" || includes (toLowerCase m) "signature".

(* The first truthy one of data.message, data.error and data.detail, or
   undefined. *)
Definition first_truthy (data : value) : value :=
  or_else (or_else (prop data "message") (prop data "error")) (prop data "detail").

(* The Authorization value and the events after the clock reading, by
   mode. *)
Definition header_of (m : Mode) (apiKey : string) (sharedKey : option string)
    (date : string) : string :=
  match m with
  | TestMode => placeholder_header apiKey
  | EnhancedMode => signed_header (interp sharedKey) apiKey date
  | LimitedMode => key_only_header apiKey
  end.

Definition hmac_of (m : Mode) (sharedKey : option string) (date : string) : list event :=
  match m with
  | EnhancedMode =>
      [ HmacDigest (interp sharedKey) ("licenseSpring" +:+ nl +:+ "date: " +:+ date)
          (crypto.hmac_sha256_base64 (interp sharedKey)
             ("licenseSpring" +:+ nl +:+ "date: " +:+ date)) ]
  | _ => []
  end.

(* ===================================================================== *)
(* Properties                                                            *)
(* ===================================================================== *)

#[local] Arguments String.append !_ _ / : simpl nomatch.
Arguments crypto.hmac_sha256_base64 : simpl never.
Arguments crypto.hmac_sha256 : simpl never.
Arguments crypto.sha256 : simpl never.
Arguments Date.toUTCString : simpl never.

(* Reduce the field accesses of a client built by the constructor. *)
Ltac client_fields :=
  cbn [isTestMode hasSharedKey apiKey sharedKey fst snd trace reads env].

(* Standard vectors for the primitives. *)

Example sha256_abc :
  crypto.hex (crypto.sha256 (crypto.utf8 "abc"))
  = "ba7816bf8f01cfea414140de5dae2223b00361a396177a9cb410ff61f20015ad"%string.
Proof. vm_compute. reflexivity. Qed.

Example sha256_empty :
  crypto.hex (crypto.sha256 [])
  = "e3b0c44298fc1c149afbf4c8996fb92427ae41e4649b934ca495991b7852b855"%string.
Proof. vm_compute. reflexivity. Qed.

Example hmac_rfc4231_case2 :
  crypto.hex (crypto.hmac_sha256 (crypto.utf8 "Jefe")
                (crypto.utf8 "what do ya want for nothing?"))
  = "5bdcc146bf60754e6a042426089575c75a003f089d2739839dec58b964ec3843"%string.
Proof. vm_compute. reflexivity. Qed.

Example hmac_long_key :
  crypto.hex (crypto.hmac_sha256 (repeat 107 100) (repeat 120 200))
  = "e326f00ce14194bb85e2683fe9b1a78851753f77479303f94c2c3cd1998bdda3"%string.
Proof. vm_compute. reflexivity. Qed.

Example signature_example_vector :
  crypto.hmac_sha256_base64 "test-shared-key"
    ("licenseSpring" +:+ nl +:+ "date: Mon, 19 Oct 2020 15:42:27 GMT")
  = "IAu+cxzAjEaKmTKWBjeuLFw1kd0sk5QjB2xM5qjupgo="%string.
Proof. vm_compute. reflexivity. Qed.

Example toUTCString_epoch :
  Date.toUTCString 0 = "Thu, 01 Jan 1970 00:00:00 GMT"%string.
Proof. vm_compute. reflexivity. Qed.

Example toUTCString_2020 :
  Date.toUTCString 1603122147123 = "Mon, 19 Oct 2020 15:42:27 GMT"%string.
Proof. vm_compute. reflexivity. Qed.

Example toUTCString_leap :
  Date.toUTCString 951782400000 = "Tue, 29 Feb 2000 00:00:00 GMT"%string.
Proof. vm_compute. reflexivity. Qed.

Section StringFacts.

Lemma append_nil_r (s : string) : s +:+ EmptyString = s.
Proof. induction s as [| c s IH]; simpl; [reflexivity | now rewrite IH]. Qed.

Lemma append_assoc (s t u : string) : (s +:+ t) +:+ u = s +:+ (t +:+ u).
Proof. induction s as [| c s IH]; simpl; [reflexivity | now rewrite IH]. Qed.

Lemma length_append (s t : string) :
  String.length (s +:+ t) = (String.length s + String.length t)%nat.
Proof. induction s as [| c s IH]; simpl; [reflexivity | now rewrite IH]. Qed.

Lemma append_fixed_l (s t : string) : s +:+ t = s -> t = EmptyString.
Proof.
  intros H. rewrite <- (append_nil_r s) in H at 2.
  exact (String.app_inj s _ _ H).
Qed.


Lemma drop_length_app {A} (l k : list A) : drop (length l) (l ++ k) = k.
Proof. induction l as [| x l IH]; simpl; [reflexivity | exact IH]. Qed.

End StringFacts.

Section Base64Facts.




(* The digest is 32 bytes, whatever was hashed. *)
Lemma sha256_length (msg : list Z) : length (crypto.sha256 msg) = 32%nat.
Proof. reflexivity. Qed.



End Base64Facts.

(* --------------------------------------------------------------------- *)
(* auth.ts: the signature                                                *)
(* --------------------------------------------------------------------- *)

Lemma generateLicenseApiSignature_run
    (sharedKey apiKey date : string) (licenseKey hardwareId : option string) (w : World) :
  let data := signingString apiKey date licenseKey hardwareId in
  let sig := crypto.hmac_sha256_base64 sharedKey data in
  generateLicenseApiSignature sharedKey apiKey date licenseKey hardwareId w
  = (Ok sig, mkWorld (env w) (clock w) (reads w) (trace w ++ [HmacDigest sharedKey data sig])).
Proof. reflexivity. Qed.

Lemma signingString_cases (apiKey date : string) (licenseKey hardwareId : option string) :
  signingString apiKey date licenseKey hardwareId =
  match licenseKey, hardwareId with
  | Some (String a l), Some (String b h) =>
      ("licenseSpring" +:+ nl +:+ "date: " +:+ date)
      +:+ nl +:+ String a l +:+ nl +:+ String b h +:+ nl +:+ apiKey
  | _, _ => "licenseSpring" +:+ nl +:+ "date: " +:+ date
  end.
Proof.
  unfold signingString.
  destruct licenseKey as [[| a l] |], hardwareId as [[| b h] |]; reflexivity.
Qed.

(** C1. For every shared secret, primary key and timestamp, the string
    hashed by generateLicenseApiSignature is the tag licenseSpring, a
    newline, then date: followed by the timestamp; when a license
    identifier and a hardware identifier are both supplied (present and
    not empty, the test the code applies), the three segments license
    identifier, hardware identifier, primary key follow, each after a
    newline; otherwise the base string alone is signed.  The extended
    string is signed exactly in the first case. *)
Theorem C1_signing_string
    (sharedKey apiKey date : string) (licenseKey hardwareId : option string) (w : World) :
  let base := "licenseSpring" +:+ nl +:+ "date: " +:+ date in
  let canonical :=
    match licenseKey, hardwareId with
    | Some (String a l), Some (String b h) =>
        base +:+ nl +:+ String a l +:+ nl +:+ String b h +:+ nl +:+ apiKey
    | _, _ => base
    end in
  result (generateLicenseApiSignature sharedKey apiKey date licenseKey hardwareId) w
    = Ok (crypto.hmac_sha256_base64 sharedKey canonical)
  /\ added (generateLicenseApiSignature sharedKey apiKey date licenseKey hardwareId) w
     = [HmacDigest sharedKey canonical (crypto.hmac_sha256_base64 sharedKey canonical)]
  /\ (canonical = base <-> truthy licenseKey && truthy hardwareId = false).
Proof.
  intros base canonical.
  assert (Hc : signingString apiKey date licenseKey hardwareId = canonical)
    by apply signingString_cases.
  unfold result, added, after.
  rewrite generateLicenseApiSignature_run. cbv zeta. rewrite Hc. simpl fst. simpl snd.
  simpl trace. rewrite drop_length_app.
  split; [reflexivity | split; [reflexivity |]].
  subst canonical.
  destruct licenseKey as [[| a l] |], hardwareId as [[| b h] |]; simpl truthy; simpl andb;
    try (split; reflexivity).
  split; [| discriminate].
  intros H. apply append_fixed_l in H. discriminate H.
Qed.

(** C10. An empty license identifier or an empty hardware identifier is
    treated as an absent one: the call signs the base string, returns the
    signature of the call without identifiers, and does not throw. *)
Theorem C10_empty_identifier_as_absent
    (sharedKey apiKey date : string) (licenseKey hardwareId : option string) (w : World) :
  licenseKey = Some EmptyString \/ hardwareId = Some EmptyString ->
  generateLicenseApiSignature sharedKey apiKey date licenseKey hardwareId w
  = generateLicenseApiSignature sharedKey apiKey date None None w
  /\ result (generateLicenseApiSignature sharedKey apiKey date licenseKey hardwareId) w
     = Ok (crypto.hmac_sha256_base64 sharedKey
             ("licenseSpring" +:+ nl +:+ "date: " +:+ date)).
Proof.
  intros H. unfold result. rewrite !generateLicenseApiSignature_run. cbv zeta.
  assert (Hs : signingString apiKey date licenseKey hardwareId
               = "licenseSpring" +:+ nl +:+ "date: " +:+ date).
  { rewrite signingString_cases.
    destruct H as [-> | ->]; [reflexivity |].
    destruct licenseKey as [[| a l] |]; reflexivity. }
  rewrite Hs. split; reflexivity.
Qed.

Lemma C10_empty_identifier_as_absent_witness :
  (Some "TEST-LICENSE-KEY"%string = Some EmptyString
   \/ Some EmptyString = Some EmptyString)
  /\ generateLicenseApiSignature "test-shared-key" "test-api-key"
       "Mon, 19 Oct 2020 15:42:27 GMT" (Some "TEST-LICENSE-KEY"%string) (Some EmptyString)
       sample_world
     = generateLicenseApiSignature "test-shared-key" "test-api-key"
         "Mon, 19 Oct 2020 15:42:27 GMT" None None sample_world
  /\ result (generateLicenseApiSignature "test-shared-key" "test-api-key"
               "Mon, 19 Oct 2020 15:42:27 GMT" (Some "TEST-LICENSE-KEY"%string)
               (Some EmptyString)) sample_world
     = Ok (crypto.hmac_sha256_base64 "test-shared-key"
             ("licenseSpring" +:+ nl +:+ "date: " +:+ "Mon, 19 Oct 2020 15:42:27 GMT")).
Proof.
  split; [right; reflexivity |].
  apply (C10_empty_identifier_as_absent "test-shared-key" "test-api-key"
           "Mon, 19 Oct 2020 15:42:27 GMT" (Some "TEST-LICENSE-KEY"%string)
           (Some EmptyString) sample_world).
  right. reflexivity.
Defined.


Example signature_offline_vector :
  result (generateLicenseApiSignature "test-shared-key" "test-api-key"
            "Mon, 19 Oct 2020 15:42:27 GMT"
            (Some "TEST-LICENSE-KEY"%string) (Some "test-hardware-id"%string)) sample_world
  = Ok "tMhzT0vmG6e44Um+uF4609sWMLlqFUXhE2UpB+Z6P8Q="%string.
Proof. vm_compute. reflexivity. Qed.

Example signature_empty_secret :
  result (generateLicenseApiSignature EmptyString "test-api-key"
            "Mon, 19 Oct 2020 15:42:27 GMT" None None) sample_world
  = Ok "x5ulOXk8WcR+nnTmWCJgQKAncIUyQ6vcT9WLSu9ZlHk="%string.
Proof. vm_compute. reflexivity. Qed.

(* --------------------------------------------------------------------- *)
(* auth.ts: the Authorization header                                     *)
(* --------------------------------------------------------------------- *)

Lemma generateLicenseApiAuthHeader_run
    (sharedKey apiKey : string) (licenseKey hardwareId : option string) (w : World) :
  let now := clock w (reads w) in
  let date := Date.toUTCString now in
  let data := signingString apiKey date licenseKey hardwareId in
  let sig := crypto.hmac_sha256_base64 sharedKey data in
  generateLicenseApiAuthHeader sharedKey apiKey licenseKey hardwareId w
  = (Ok (mkAuthHeader date
           ("algorithm=" +:+ dq +:+ "hmac-sha256" +:+ dq +:+ ",headers=" +:+ dq +:+ "date" +:+ dq
            +:+ ",signature=" +:+ dq +:+ sig +:+ dq +:+ ",apikey=" +:+ dq +:+ apiKey +:+ dq)),
     mkWorld (env w) (clock w) (S (reads w))
             (trace w ++ [ClockRead now; HmacDigest sharedKey data sig])).
Proof.
  cbv zeta. unfold generateLicenseApiAuthHeader, bind, newDate.
  rewrite generateLicenseApiSignature_run. cbv zeta. unfold ret. simpl.
  now rewrite <- app_assoc.
Qed.

Lemma signed_header_attributes (sig apiKey : string) :
  "algorithm=" +:+ dq +:+ "hmac-sha256" +:+ dq +:+ ",headers=" +:+ dq +:+ "date" +:+ dq
  +:+ ",signature=" +:+ dq +:+ sig +:+ dq +:+ ",apikey=" +:+ dq +:+ apiKey +:+ dq
  = String.concat ","
      [ attribute "algorithm" "hmac-sha256"; attribute "headers" "date";
        attribute "signature" sig; attribute "apikey" apiKey ].
Proof.
  unfold attribute, quoted, dq. simpl.
  rewrite ?append_assoc. simpl. rewrite ?append_assoc. reflexivity.
Qed.

(** C2. For every shared secret and primary key, the authorization value
    returned by generateLicenseApiAuthHeader is the four attributes
    algorithm, headers, signature and apikey in that order, each value in
    double quotes, joined by commas with nothing else in between; the
    signature value is the base64 HMAC-SHA256, keyed by the shared secret,
    of the canonical string: licenseSpring, a line feed, date: and the
    returned date, followed, when both identifiers are supplied, by the
    license identifier, the hardware identifier and the primary key, each
    after a line feed. *)
Theorem C2_authorization_format
    (sharedKey apiKey : string) (licenseKey hardwareId : option string) (w : World) :
  exists r : AuthHeader,
    result (generateLicenseApiAuthHeader sharedKey apiKey licenseKey hardwareId) w = Ok r
    /\ date r = Date.toUTCString (clock w (reads w))
    /\ let base := "licenseSpring" +:+ nl +:+ "date: " +:+ date r in
       let canonical :=
         match licenseKey, hardwareId with
         | Some (String a l), Some (String b h) =>
             base +:+ nl +:+ String a l +:+ nl +:+ String b h +:+ nl +:+ apiKey
         | _, _ => base
         end in
       authorization r
       = String.concat ","
           [ attribute "algorithm" "hmac-sha256";
             attribute "headers" "date";
             attribute "signature" (crypto.hmac_sha256_base64 sharedKey canonical);
             attribute "apikey" apiKey ].
Proof.
  unfold result. rewrite generateLicenseApiAuthHeader_run. cbv zeta.
  eexists. split; [reflexivity |]. cbn [date authorization].
  split; [reflexivity |].
  rewrite signingString_cases. apply signed_header_attributes.
Qed.

(** C6. Every call of generateLicenseApiAuthHeader reads the clock once,
    taking its next reading, and returns the rendering of that reading as
    its date; the one signature it computes, after the clock was read, is
    over the canonical string whose date line is date: followed by exactly
    this date string (the line ends there: the string ends or a line feed
    follows), and that signature is the one in the authorization value. *)
Theorem C6_fresh_timestamp
    (sharedKey apiKey : string) (licenseKey hardwareId : option string) (w : World) :
  let call := generateLicenseApiAuthHeader sharedKey apiKey licenseKey hardwareId in
  let now := clock w (reads w) in
  exists (r : AuthHeader) (rest : string),
    let base := "licenseSpring" +:+ nl +:+ "date: " +:+ date r in
    let canonical :=
      match licenseKey, hardwareId with
      | Some (String a l), Some (String b h) =>
          base +:+ nl +:+ String a l +:+ nl +:+ String b h +:+ nl +:+ apiKey
      | _, _ => base
      end in
    let sig := crypto.hmac_sha256_base64 sharedKey canonical in
    result call w = Ok r
    /\ date r = Date.toUTCString now
    /\ reads (after call w) = S (reads w)
    /\ added call w = [ ClockRead now; HmacDigest sharedKey canonical sig ]
    /\ canonical = "licenseSpring" +:+ nl +:+ "date: " +:+ date r +:+ rest
    /\ (rest = EmptyString \/ exists more : string, rest = nl +:+ more)
    /\ authorization r
       = String.concat ","
           [ attribute "algorithm" "hmac-sha256"; attribute "headers" "date";
             attribute "signature" sig; attribute "apikey" apiKey ].
Proof.
  intros call now. subst call. unfold result, added, after.
  rewrite generateLicenseApiAuthHeader_run. cbv zeta. fold now.
  rewrite signingString_cases.
  eexists.
  exists (match licenseKey, hardwareId with
          | Some (String a l), Some (String b h) =>
              nl +:+ String a l +:+ nl +:+ String b h +:+ nl +:+ apiKey
          | _, _ => EmptyString
          end).
  cbn [fst snd date authorization trace reads].
  rewrite drop_length_app.
  split; [reflexivity |]. split; [reflexivity |]. split; [reflexivity |].
  split; [reflexivity |].
  split; [| split].
  - destruct licenseKey as [[| a l] |], hardwareId as [[| b h] |];
      rewrite ?append_assoc, ?append_nil_r; reflexivity.
  - destruct licenseKey as [[| a l] |], hardwareId as [[| b h] |];
      first [left; reflexivity | right; eexists; reflexivity].
  - apply signed_header_attributes.
Qed.

Example auth_header_sample :
  result (generateLicenseApiAuthHeader "test-shared-key" "test-api-key" None None) sample_world
  = Ok (mkAuthHeader "Mon, 19 Oct 2020 15:42:27 GMT"
          (String.concat ","
             [ attribute "algorithm" "hmac-sha256"; attribute "headers" "date";
               attribute "signature" "IAu+cxzAjEaKmTKWBjeuLFw1kd0sk5QjB2xM5qjupgo=";
               attribute "apikey" "test-api-key" ])).
Proof. vm_compute. reflexivity. Qed.

(* --------------------------------------------------------------------- *)
(* auth.ts: the Management API header                                    *)
(* --------------------------------------------------------------------- *)

Lemma substring_skip (p s : string) (n : nat) :
  substring (String.length p) n (p +:+ s) = substring 0 n s.
Proof. induction p as [| c p IH]; simpl; [reflexivity | exact IH]. Qed.

Lemma substring_all (s : string) : substring 0 (String.length s) s = s.
Proof. induction s as [| c s IH]; simpl; [reflexivity | now rewrite IH]. Qed.

(** C9. For every API key, generateManagementApiAuthHeader returns the
    prefix Api-Key, one space, then the key unchanged: the key is read
    back from position 8 on, and nothing follows it.  The Management API
    client installs that value as its Authorization header. *)
Theorem C9_management_header (apiKey baseURL : string) :
  generateManagementApiAuthHeader apiKey = String.concat " " ["Api-Key"%string; apiKey]
  /\ String.length (generateManagementApiAuthHeader apiKey) = (8 + String.length apiKey)%nat
  /\ substring 8 (String.length apiKey) (generateManagementApiAuthHeader apiKey) = apiKey
  /\ snd (mclient (new_ManagementApiClient baseURL apiKey)) !! "Authorization"%string
     = Some ("Api-Key " +:+ apiKey).
Proof.
  unfold generateManagementApiAuthHeader.
  split; [reflexivity |].
  split; [now rewrite length_append |].
  split.
  - change 8%nat with (String.length "Api-Key ").
    rewrite substring_skip. apply substring_all.
  - unfold new_ManagementApiClient, generateManagementApiAuthHeader. simpl.
    now simplify_map_eq.
Qed.

(* --------------------------------------------------------------------- *)
(* http.ts: the License API client                                       *)
(* --------------------------------------------------------------------- *)

Lemma new_LicenseApiClient_run (baseURL apiKey : string) (sharedKey : option string)
    (w : World) :
  exists c : string * gmap string string,
    new_LicenseApiClient baseURL apiKey sharedKey w
    = (Ok (mkLicenseApiClient c apiKey sharedKey
             (startsWith apiKey "test-" || testEnv w)
             (truthy sharedKey && negb (startsWith apiKey "test-" || testEnv w))),
       w).
Proof. eexists. reflexivity. Qed.

Lemma lookup_Authorization (value auth : string) (config : AxiosRequestConfig) :
  headers (setHeader "Authorization" auth (setHeader "Date" value config))
    !! "Authorization"%string = Some auth.
Proof. unfold setHeader. cbn [headers]. apply lookup_insert_eq. Qed.

Lemma lookup_Date (value auth : string) (config : AxiosRequestConfig) :
  headers (setHeader "Authorization" auth (setHeader "Date" value config))
    !! "Date"%string = Some value.
Proof.
  unfold setHeader. cbn [headers].
  rewrite lookup_insert_ne by discriminate. apply lookup_insert_eq.
Qed.

Lemma interceptor_test (this : LicenseApiClient) (config : AxiosRequestConfig) (w : World) :
  isTestMode this = true ->
  let now := clock w (reads w) in
  requestInterceptor this config w
  = (Ok (setHeader "Authorization" (placeholder_header (apiKey this))
           (setHeader "Date" (Date.toUTCString now) config)),
     mkWorld (env w) (clock w) (S (reads w)) (trace w ++ [ClockRead now])).
Proof.
  intros Ht now. unfold requestInterceptor. rewrite Ht.
  unfold bind, newDate, ret. fold now. unfold placeholder_header.
  now rewrite <- signed_header_attributes.
Qed.

Lemma interceptor_enhanced (this : LicenseApiClient) (config : AxiosRequestConfig)
    (key : string) (w : World) :
  isTestMode this = false -> hasSharedKey this = true -> sharedKey this = Some key ->
  let now := clock w (reads w) in
  let date := Date.toUTCString now in
  let data := "licenseSpring" +:+ nl +:+ "date: " +:+ date in
  requestInterceptor this config w
  = (Ok (setHeader "Authorization" (signed_header key (apiKey this) date)
           (setHeader "Date" date config)),
     mkWorld (env w) (clock w) (S (reads w))
       (trace w ++ [ClockRead now;
                    HmacDigest key data (crypto.hmac_sha256_base64 key data)])).
Proof.
  intros Ht Hs Hk now date0 data. unfold requestInterceptor. rewrite Ht, Hs, Hk.
  unfold nonNull. unfold bind at 1. unfold ret at 1. unfold bind at 1.
  rewrite generateLicenseApiAuthHeader_run. cbv zeta. unfold ret.
  cbn [date authorization]. unfold signed_header.
  rewrite <- signed_header_attributes. reflexivity.
Qed.

Lemma interceptor_limited (this : LicenseApiClient) (config : AxiosRequestConfig)
    (w : World) :
  isTestMode this = false -> hasSharedKey this = false ->
  let now := clock w (reads w) in
  requestInterceptor this config w
  = (Ok (setHeader "Authorization" (key_only_header (apiKey this))
           (setHeader "Date" (Date.toUTCString now) config)),
     mkWorld (env w) (clock w) (S (reads w)) (trace w ++ [ClockRead now])).
Proof.
  intros Ht Hs now. unfold requestInterceptor. rewrite Ht, Hs.
  unfold bind, newDate, ret. fold now. reflexivity.
Qed.

Lemma truthy_Some (o : option string) :
  truthy o = true -> exists s, o = Some s /\ s <> EmptyString.
Proof.
  destruct o as [[| c s] |]; simpl; try discriminate.
  intros _. eexists. split; [reflexivity | discriminate].
Qed.

Lemma testEnv_spec (w : World) :
  testEnv w = true <-> env w !! "NODE_ENV"%string = Some "test"%string.
Proof. unfold testEnv. apply bool_decide_eq_true. Qed.


(** C3. The mode of the License API client is fixed by the primary key,
    the shared secret and the test flag of the environment in which the
    client is constructed: test mode exactly when the key starts with
    test- or NODE_ENV is test; enhanced mode exactly when a shared secret
    is present (not empty) and test mode is off; limited mode exactly when
    the shared secret is absent and test mode is off.  Construction leaves
    the world as it was, and every later request, in whatever world it is
    made, gets the header of that mode: the placeholder header, the signed
    header, or the header with the key only. *)
Theorem C3_operation_mode
    (baseURL apiKey : string) (sharedKey : option string) (w : World) :
  exists this : LicenseApiClient,
    new_LicenseApiClient baseURL apiKey sharedKey w = (Ok this, w)
    /\ (mode this = TestMode
        <-> startsWith apiKey "test-" = true
            \/ env w !! "NODE_ENV"%string = Some "test"%string)
    /\ (mode this = EnhancedMode <-> truthy sharedKey = true /\ mode this <> TestMode)
    /\ (mode this = LimitedMode <-> truthy sharedKey = false /\ mode this <> TestMode)
    /\ forall (config : AxiosRequestConfig) (w' : World),
         exists config' : AxiosRequestConfig,
           result (requestInterceptor this config) w' = Ok config'
           /\ headers config' !! "Authorization"%string
              = Some match mode this with
                     | TestMode => placeholder_header apiKey
                     | EnhancedMode =>
                         signed_header (interp sharedKey) apiKey
                           (Date.toUTCString (clock w' (reads w')))
                     | LimitedMode => key_only_header apiKey
                     end.
Proof.
  destruct (new_LicenseApiClient_run baseURL apiKey sharedKey w) as [c Hnew].
  eexists. split; [exact Hnew |].
  unfold mode. client_fields.
  rewrite <- testEnv_spec.
  destruct (startsWith apiKey "test-") eqn:Hp, (testEnv w) eqn:He; cbn [orb negb];
    rewrite ?andb_false_r, ?andb_true_r.
  1-3: (split; [split; [intros _; auto | reflexivity] |];
        split; [split; [discriminate | intros [_ H]; now elim H] |];
        split; [split; [discriminate | intros [_ H]; now elim H] |];
        intros config w'; eexists; unfold result;
        rewrite interceptor_test by (client_fields; rewrite ?Hp, ?He; reflexivity);
        split; [reflexivity | apply lookup_Authorization]).
  split; [split; [destruct (truthy sharedKey); discriminate
                 | intros [H | H]; discriminate H] |].
  destruct (truthy sharedKey) eqn:Hs.
  - split; [split; [intros _; split; [reflexivity | discriminate] | reflexivity] |].
    split; [split; [discriminate | intros [H _]; discriminate H] |].
    intros config w'. destruct (truthy_Some _ Hs) as (key & -> & _).
    eexists. unfold result.
    rewrite (interceptor_enhanced _ config key)
      by (client_fields; rewrite ?Hp, ?He, ?Hs; reflexivity).
    split; [reflexivity | apply lookup_Authorization].
  - split; [split; [discriminate | intros [H _]; discriminate H] |].
    split; [split; [intros _; split; [reflexivity | discriminate] | reflexivity] |].
    intros config w'. eexists. unfold result.
    rewrite interceptor_limited
      by (client_fields; rewrite ?Hp, ?He, ?Hs; reflexivity).
    split; [reflexivity | apply lookup_Authorization].
Qed.

(** C4. If the primary key starts with test-, then for every shared
    secret the Authorization header set by the client carries the
    signature test-signature; the request reads the clock and computes no
    HMAC, and two clients that differ in the shared secret only answer a
    request in the same way. *)
Theorem C4_test_prefix_placeholder
    (baseURL apiKey : string) (sharedKey sharedKey' : option string)
    (config : AxiosRequestConfig) (w w' : World) :
  startsWith apiKey "test-" = true ->
  exists (this this' : LicenseApiClient) (config' : AxiosRequestConfig),
    new_LicenseApiClient baseURL apiKey sharedKey w = (Ok this, w)
    /\ new_LicenseApiClient baseURL apiKey sharedKey' w = (Ok this', w)
    /\ result (requestInterceptor this config) w' = Ok config'
    /\ headers config' !! "Authorization"%string
       = Some (String.concat ","
                 [ attribute "algorithm" "hmac-sha256"; attribute "headers" "date";
                   attribute "signature" "test-signature"; attribute "apikey" apiKey ])
    /\ added (requestInterceptor this config) w' = [ClockRead (clock w' (reads w'))]
    /\ requestInterceptor this' config w' = requestInterceptor this config w'.
Proof.
  intros Hp.
  destruct (new_LicenseApiClient_run baseURL apiKey sharedKey w) as [c Hnew].
  destruct (new_LicenseApiClient_run baseURL apiKey sharedKey' w) as [c' Hnew'].
  rewrite Hp in Hnew, Hnew'. cbn [orb] in Hnew, Hnew'.
  do 3 eexists. split; [exact Hnew |]. split; [exact Hnew' |].
  unfold result, added, after. rewrite !interceptor_test by reflexivity.
  client_fields. rewrite drop_length_app.
  repeat split; try reflexivity. apply lookup_Authorization.
Qed.

Lemma C4_test_prefix_placeholder_witness :
  startsWith "test-api-key" "test-" = true
  /\ exists (this this' : LicenseApiClient) (config' : AxiosRequestConfig),
       new_LicenseApiClient "https://api.licensespring.com" "test-api-key"
         (Some "test-shared-key"%string) sample_world = (Ok this, sample_world)
       /\ new_LicenseApiClient "https://api.licensespring.com" "test-api-key"
            None sample_world = (Ok this', sample_world)
       /\ result (requestInterceptor this (mkConfig "/api/v4/check_license" ∅)) sample_world
          = Ok config'
       /\ headers config' !! "Authorization"%string
          = Some (String.concat ","
                    [ attribute "algorithm" "hmac-sha256"; attribute "headers" "date";
                      attribute "signature" "test-signature";
                      attribute "apikey" "test-api-key" ])
       /\ added (requestInterceptor this (mkConfig "/api/v4/check_license" ∅)) sample_world
          = [ClockRead (clock sample_world (reads sample_world))]
       /\ requestInterceptor this' (mkConfig "/api/v4/check_license" ∅) sample_world
          = requestInterceptor this (mkConfig "/api/v4/check_license" ∅) sample_world.
Proof.
  split; [reflexivity |].
  apply (C4_test_prefix_placeholder "https://api.licensespring.com" "test-api-key"
           (Some "test-shared-key"%string) None (mkConfig "/api/v4/check_license" ∅)
           sample_world sample_world).
  reflexivity.
Defined.

(* In enhanced mode the Date header is the date that was signed. *)
Lemma enhanced_date_header_is_signed_date
    (this : LicenseApiClient) (config : AxiosRequestConfig) (key : string) (w : World) :
  isTestMode this = false -> hasSharedKey this = true -> sharedKey this = Some key ->
  exists (config' : AxiosRequestConfig) (d sig : string),
    result (requestInterceptor this config) w = Ok config'
    /\ headers config' !! "Date"%string = Some d
    /\ added (requestInterceptor this config) w
       = [ ClockRead (clock w (reads w));
           HmacDigest key ("licenseSpring" +:+ nl +:+ "date: " +:+ d) sig ].
Proof.
  intros Ht Hs Hk. unfold result, added, after.
  rewrite (interceptor_enhanced this config key w Ht Hs Hk). cbv zeta.
  do 3 eexists. cbn [fst snd trace]. rewrite drop_length_app.
  split; [reflexivity |]. split; [apply lookup_Date | reflexivity].
Qed.

(* NODE_ENV=test puts a client in test mode whatever its key. *)
Example test_environment_client :
  exists this : LicenseApiClient,
    new_LicenseApiClient "https://api.licensespring.com" "prod-api-key"
      (Some "shared-key"%string) sample_test_world = (Ok this, sample_test_world)
    /\ mode this = TestMode.
Proof. eexists. split; reflexivity. Qed.

Example enhanced_client :
  exists this : LicenseApiClient,
    new_LicenseApiClient "https://api.licensespring.com" "prod-api-key"
      (Some "shared-key"%string) sample_world = (Ok this, sample_world)
    /\ mode this = EnhancedMode.
Proof. eexists. split; reflexivity. Qed.

(* --------------------------------------------------------------------- *)
(* Occurrences of signature= in a header                                 *)
(* --------------------------------------------------------------------- *)

Section Includes.

Lemma includes_cons (c : ascii) (s p : string) :
  includes (String c s) p = String.prefix p (String c s) || includes s p.
Proof. reflexivity. Qed.

(* A pattern without double quote matches at the end of s followed by a
   double quote only if it matches s. *)
Lemma prefix_before_quote (p s : string) :
  ~ In "034"%char (list_ascii_of_string p) ->
  String.prefix p (s +:+ dq) = String.prefix p s.
Proof.
  revert s. induction p as [| a p IH]; intros s Hq.
  - destruct s; reflexivity.
  - destruct s as [| c s].
    + simpl. destruct (ascii_dec a "034") as [-> | _]; [| reflexivity].
      exfalso. apply Hq. now left.
    + simpl. destruct (ascii_dec a c); [| reflexivity].
      apply IH. intros Hin. apply Hq. now right.
Qed.

Lemma includes_before_quote (p s : string) :
  p <> EmptyString ->
  ~ In "034"%char (list_ascii_of_string p) ->
  includes (s +:+ dq) p = includes s p.
Proof.
  intros Hne Hq. induction s as [| c s IH].
  - destruct p as [| a p]; [now elim Hne |].
    simpl. destruct (ascii_dec a "034") as [-> | _]; [| reflexivity].
    exfalso. apply Hq. now left.
  - change (String c s +:+ dq) with (String c (s +:+ dq)).
    rewrite !includes_cons, IH.
    change (String c (s +:+ dq)) with (String c s +:+ dq).
    now rewrite prefix_before_quote.
Qed.

(* The header apikey="<key>" holds signature= only where the key does. *)
Lemma key_only_header_includes (apiKey : string) :
  includes (key_only_header apiKey) "signature=" = includes apiKey "signature=".
Proof.
  unfold key_only_header, attribute, quoted.
  change ("apikey" +:+ "=" +:+ dq +:+ apiKey +:+ dq)
    with (String "a" (String "p" (String "i" (String "k" (String "e" (String "y"
           (String "=" (String "034" (apiKey +:+ dq))))))))).
  rewrite !includes_cons.
  replace (includes (apiKey +:+ dq) "signature=") with (includes apiKey "signature=").
  - reflexivity.
  - symmetry. apply includes_before_quote; [discriminate |].
    simpl. intros H. repeat (destruct H as [H | H]; [discriminate H |]). exact H.
Qed.

Lemma includes_here (s p : string) : String.prefix p s = true -> includes s p = true.
Proof.
  intros H. destruct s; [unfold includes | rewrite includes_cons]; rewrite H; reflexivity.
Qed.

Lemma includes_later (c : ascii) (s p : string) :
  includes s p = true -> includes (String c s) p = true.
Proof. intros H. rewrite includes_cons, H. apply orb_true_r. Qed.

Lemma placeholder_header_includes (apiKey : string) :
  includes (placeholder_header apiKey) "signature=" = true.
Proof.
  unfold placeholder_header, attribute, quoted, dq. simpl String.concat.
  repeat first [ apply includes_here; reflexivity | apply includes_later ].
Qed.

End Includes.

(* With the key test-api-key and no shared secret the client is in test
   mode, and its header carries the placeholder signature. *)
Lemma C5_counterexample :
  exists (this : LicenseApiClient) (config' : AxiosRequestConfig) (auth : string),
    truthy None = false
    /\ new_LicenseApiClient "https://api.licensespring.com" "test-api-key" None sample_world
       = (Ok this, sample_world)
    /\ result (requestInterceptor this (mkConfig "/api/v4/check_license" ∅)) sample_world
       = Ok config'
    /\ headers config' !! "Authorization"%string = Some auth
    /\ auth = placeholder_header "test-api-key"
    /\ includes auth "signature=" = true.
Proof.
  destruct (new_LicenseApiClient_run "https://api.licensespring.com" "test-api-key"
              None sample_world) as [c Hnew].
  do 3 eexists. split; [reflexivity |]. split; [exact Hnew |].
  unfold result. rewrite interceptor_test by reflexivity.
  split; [reflexivity |]. split; [apply lookup_Authorization |].
  split; [reflexivity |]. apply placeholder_header_includes.
Qed.

(** C5 (amended). For every primary key, whenever the shared secret is
    empty or absent, no signature is computed at all: the request reads
    the clock and computes no HMAC, whatever the key and NODE_ENV.  When
    in addition test mode is off (the key does not start with test- and
    NODE_ENV is not test), the Authorization header set by the client is
    apikey= followed by the key in double quotes and nothing else, so it
    carries only the primary key and holds the text signature= only if
    the key itself does. *)
Theorem C5_key_only_header
    (baseURL apiKey : string) (sharedKey : option string)
    (config : AxiosRequestConfig) (w w' : World) :
  sharedKey = None \/ sharedKey = Some EmptyString ->
  exists (this : LicenseApiClient) (config' : AxiosRequestConfig),
    new_LicenseApiClient baseURL apiKey sharedKey w = (Ok this, w)
    /\ result (requestInterceptor this config) w' = Ok config'
    /\ added (requestInterceptor this config) w' = [ClockRead (clock w' (reads w'))]
    /\ (forall key data sig : string,
          ~ In (HmacDigest key data sig) (added (requestInterceptor this config) w'))
    /\ (startsWith apiKey "test-" = false ->
        env w !! "NODE_ENV"%string <> Some "test"%string ->
        headers config' !! "Authorization"%string
        = Some ("apikey=" +:+ dq +:+ apiKey +:+ dq)
        /\ includes ("apikey=" +:+ dq +:+ apiKey +:+ dq) "signature="
           = includes apiKey "signature=").
Proof.
  intros Hs.
  assert (Hs' : truthy sharedKey = false) by (destruct Hs as [-> | ->]; reflexivity).
  destruct (new_LicenseApiClient_run baseURL apiKey sharedKey w) as [c Hnew].
  rewrite Hs' in Hnew. cbn [andb] in Hnew.
  destruct (startsWith apiKey "test-" || testEnv w) eqn:Ht.
  - (* test mode: the placeholder, without any HMAC *)
    do 2 eexists. split; [exact Hnew |].
    unfold result, added, after. rewrite !interceptor_test by reflexivity.
    client_fields. rewrite drop_length_app.
    split; [reflexivity |]. split; [reflexivity |].
    split; [intros key data sig [H | []]; discriminate H |].
    intros Hp He. exfalso.
    apply orb_true_iff in Ht. destruct Ht as [Ht | Ht]; [congruence |].
    apply testEnv_spec in Ht. contradiction.
  - (* limited mode *)
    do 2 eexists. split; [exact Hnew |].
    unfold result, added, after. rewrite !interceptor_limited by reflexivity.
    client_fields. rewrite drop_length_app.
    split; [reflexivity |]. split; [reflexivity |].
    split; [intros key data sig [H | []]; discriminate H |].
    intros _ _. split; [apply lookup_Authorization | apply key_only_header_includes].
Qed.

Lemma C5_key_only_header_witness :
  (@None string = None \/ @None string = Some EmptyString)
  /\ exists (this : LicenseApiClient) (config' : AxiosRequestConfig),
       new_LicenseApiClient "https://api.licensespring.com" "prod-api-key" None sample_world
       = (Ok this, sample_world)
       /\ result (requestInterceptor this (mkConfig "/api/v4/check_license" ∅)) sample_world
          = Ok config'
       /\ added (requestInterceptor this (mkConfig "/api/v4/check_license" ∅)) sample_world
          = [ClockRead (clock sample_world (reads sample_world))]
       /\ (forall key data sig : string,
             ~ In (HmacDigest key data sig)
                 (added (requestInterceptor this (mkConfig "/api/v4/check_license" ∅))
                    sample_world))
       /\ (startsWith "prod-api-key" "test-" = false ->
           env sample_world !! "NODE_ENV"%string <> Some "test"%string ->
           headers config' !! "Authorization"%string
           = Some ("apikey=" +:+ dq +:+ "prod-api-key" +:+ dq)
           /\ includes ("apikey=" +:+ dq +:+ "prod-api-key" +:+ dq) "signature="
              = includes "prod-api-key" "signature=").
Proof.
  split; [left; reflexivity |].
  apply (C5_key_only_header "https://api.licensespring.com" "prod-api-key" None
           (mkConfig "/api/v4/check_license" ∅) sample_world sample_world).
  left; reflexivity.
Defined.

Example limited_mode_header_sample :
  exists (this : LicenseApiClient) (config' : AxiosRequestConfig),
    new_LicenseApiClient "https://api.licensespring.com" "prod-api-key" None sample_world
    = (Ok this, sample_world)
    /\ result (requestInterceptor this (mkConfig "/api/v4/check_license" ∅)) sample_world
       = Ok config'
    /\ headers config' !! "Authorization"%string
       = Some ("apikey=" +:+ dq +:+ "prod-api-key" +:+ dq)
    /\ headers config' !! "Date"%string = Some "Mon, 19 Oct 2020 15:42:27 GMT"%string.
Proof.
  do 2 eexists. split; [reflexivity |].
  unfold result. rewrite interceptor_limited by reflexivity.
  split; [reflexivity |]. split; [apply lookup_Authorization |].
  rewrite lookup_Date. reflexivity.
Qed.

(* --------------------------------------------------------------------- *)
(* auth.ts: validation of the credentials                                *)
(* --------------------------------------------------------------------- *)


(** C7. validateLicenseApiAuth throws exactly when the primary key is
    missing (undefined or the empty string).  With a primary key it
    returns normally for every shared secret, present or absent; all it
    does is write to the console, and when the shared secret is absent
    and test mode is off it warns that LICENSE_SHARED_KEY was not
    provided. *)
Theorem C7_validate_license_auth (apiKey sharedKey : option string) (w : World) :
  let call := validateLicenseApiAuth apiKey sharedKey in
  ((exists message : string, result call w = Thrown message)
   <-> apiKey = None \/ apiKey = Some EmptyString)
  /\ (result call w = Ok tt <-> exists k : string, apiKey = Some k /\ k <> EmptyString)
  /\ env (after call w) = env w
  /\ reads (after call w) = reads w
  /\ forallb is_console (added call w) = true
  /\ (result call w = Ok tt ->
      truthy sharedKey = false ->
      startsWith (interp apiKey) "test-" = false ->
      testEnv w = false ->
      In (ConsoleWarn "ℹ️  LICENSE_SHARED_KEY not provided - this is optional for organizations using shared API settings")
         (added call w)).
Proof.
  intros call. subst call. unfold result, added, after.
  destruct apiKey as [[| c k] |].
  - (* the empty string *)
    cbn. rewrite drop_all.
    repeat split; eauto; try discriminate.
    + intros (k & [= <-] & Hk). now elim Hk.
  - (* a key *)
    unfold validateLicenseApiAuth, bind, getenv. cbv beta iota. fold (testEnv w).
    cbn [interp].
    destruct (startsWith (String c k) "test-") eqn:Hp, (testEnv w) eqn:He,
             (truthy sharedKey) eqn:Hs;
      cbn [orb andb negb console_warn console_log emit bind fst snd env reads trace ret];
      rewrite <- ?app_assoc, drop_length_app;
      (split; [split; [intros [m Hm]; discriminate Hm | intros [H | H]; discriminate H] |]);
      (split; [split; [intros _; eexists; split; [reflexivity | discriminate] | reflexivity] |]);
      (split; [reflexivity |]); (split; [reflexivity |]); (split; [reflexivity |]);
      intros _ H1 H2 H3; try discriminate.
    simpl. right. left. reflexivity.
  - (* undefined *)
    cbn. rewrite drop_all.
    repeat split; eauto; try discriminate.
    + intros (k & [= ] & _).
Qed.

(* The validation classifies the credentials as the client does. *)
Lemma validate_announces_client_mode
    (baseURL key : string) (sharedKey : option string) (w : World) :
  key <> EmptyString ->
  exists this : LicenseApiClient,
    new_LicenseApiClient baseURL key sharedKey w = (Ok this, w)
    /\ added (validateLicenseApiAuth (Some key) sharedKey) w = announcement (mode this).
Proof.
  intros Hk.
  destruct (new_LicenseApiClient_run baseURL key sharedKey w) as [c Hnew].
  eexists. split; [exact Hnew |].
  destruct key as [| a k]; [now elim Hk |].
  unfold added, after, mode, validateLicenseApiAuth, bind, getenv. cbv beta iota.
  fold (testEnv w). client_fields.
  destruct (startsWith (String a k) "test-"), (testEnv w), (truthy sharedKey);
    cbn [orb andb negb console_warn console_log emit bind fst snd env reads trace ret
         announcement];
    rewrite <- ?app_assoc, drop_length_app; reflexivity.
Qed.

Example validate_missing_key :
  result (validateLicenseApiAuth None (Some "shared-key"%string)) sample_world
  = Thrown "LICENSE_API_KEY is required as the primary authentication method for License API operations".
Proof. reflexivity. Qed.

Example validate_missing_shared_key :
  result (validateLicenseApiAuth (Some "api-key"%string) None) sample_world = Ok tt
  /\ filter (fun e => is_warning e)
       (added (validateLicenseApiAuth (Some "api-key"%string) None) sample_world)
     = [ ConsoleWarn "ℹ️  LICENSE_SHARED_KEY not provided - this is optional for organizations using shared API settings";
         ConsoleWarn "   The MCP server will use LICENSE_API_KEY as the primary authentication method";
         ConsoleWarn "   If your organization requires shared key authentication, please provide LICENSE_SHARED_KEY" ].
Proof. split; reflexivity. Qed.

(* --------------------------------------------------------------------- *)
(* The earlier revisions                                                 *)
(* --------------------------------------------------------------------- *)

(* The earlier validation rejected a missing shared key; the current one
   accepts it. *)
Remark earlier_validate_required_shared_key :
  result (Earlier.validateLicenseApiAuth (Some "api-key"%string) None) sample_world
  = Thrown "LICENSE_SHARED_KEY is required for License API operations"
  /\ result (validateLicenseApiAuth (Some "api-key"%string) None) sample_world = Ok tt.
Proof. split; reflexivity. Qed.

(* The earlier client, guarded by that validation, signed every request
   with the shared key it was given. *)
Remark earlier_interceptor_always_signs
    (apiKey sharedKey : string) (config : AxiosRequestConfig) (w : World) :
  exists config' : AxiosRequestConfig,
    result (Earlier.requestInterceptor apiKey sharedKey config) w = Ok config'
    /\ headers config' !! "Authorization"%string
       = Some (signed_header sharedKey apiKey (Date.toUTCString (clock w (reads w)))).
Proof.
  unfold result, Earlier.requestInterceptor. unfold bind at 1.
  rewrite generateLicenseApiAuthHeader_run. cbv zeta. unfold ret.
  eexists. split; [reflexivity |]. cbn [fst date authorization].
  rewrite lookup_Authorization. unfold signed_header.
  now rewrite <- signed_header_attributes.
Qed.


(* ===================================================================== *)
(* Further properties                                                    *)
(* ===================================================================== *)

(* --------------------------------------------------------------------- *)
(* The interceptor of a constructed client                               *)
(* --------------------------------------------------------------------- *)

(* Every request of a client made by the constructor succeeds, in each
   mode, and has this shape. *)
Lemma interceptor_constructed
    (baseURL apiKey : string) (sharedKey : option string) (w : World) :
  exists this : LicenseApiClient,
    new_LicenseApiClient baseURL apiKey sharedKey w = (Ok this, w)
    /\ forall (config : AxiosRequestConfig) (w' : World),
         let now := clock w' (reads w') in
         let d := Date.toUTCString now in
         requestInterceptor this config w'
         = (Ok (setHeader "Authorization" (header_of (mode this) apiKey sharedKey d)
                  (setHeader "Date" d config)),
            mkWorld (env w') (clock w') (S (reads w'))
              (trace w' ++ ClockRead now :: hmac_of (mode this) sharedKey d)).
Proof.
  destruct (new_LicenseApiClient_run baseURL apiKey sharedKey w) as [c Hnew].
  eexists. split; [exact Hnew |].
  intros config w' now d. unfold mode. client_fields.
  destruct (startsWith apiKey "test-" || testEnv w) eqn:Ht.
  - rewrite interceptor_test by (client_fields; first [exact Ht | reflexivity]).
    reflexivity.
  - cbn [negb]. rewrite andb_true_r. destruct (truthy sharedKey) eqn:Hs.
    + destruct (truthy_Some _ Hs) as (key & -> & _).
      rewrite (interceptor_enhanced _ config key)
        by (client_fields; rewrite ?Ht, ?Hs; reflexivity).
      reflexivity.
    + rewrite interceptor_limited by (client_fields; rewrite ?Ht, ?Hs; reflexivity).
      reflexivity.
Qed.

(** X1. A request of a constructed client never fails, in any mode; the
    interceptor leaves the url and every header other than Date and
    Authorization as they were, sets Date to the rendering of the clock
    reading it took, and overwrites an Authorization header that was
    there. *)
Theorem X1_interceptor_frame
    (baseURL apiKey : string) (sharedKey : option string)
    (config : AxiosRequestConfig) (w w' : World) :
  exists (this : LicenseApiClient) (config' : AxiosRequestConfig) (auth : string),
    new_LicenseApiClient baseURL apiKey sharedKey w = (Ok this, w)
    /\ result (requestInterceptor this config) w' = Ok config'
    /\ url config' = url config
    /\ headers config' !! "Date"%string = Some (Date.toUTCString (clock w' (reads w')))
    /\ headers config' !! "Authorization"%string = Some auth
    /\ auth = header_of (mode this) apiKey sharedKey (Date.toUTCString (clock w' (reads w')))
    /\ (forall name : string,
          name <> "Date"%string -> name <> "Authorization"%string ->
          headers config' !! name = headers config !! name)
    /\ env (after (requestInterceptor this config) w') = env w'.
Proof.
  destruct (interceptor_constructed baseURL apiKey sharedKey w) as (this & Hnew & Hrun).
  exists this. do 2 eexists. split; [exact Hnew |].
  unfold result, after. rewrite Hrun. cbn [fst snd env].
  split; [reflexivity |]. split; [reflexivity |].
  split; [apply lookup_Date |]. split; [apply lookup_Authorization |].
  split; [reflexivity |]. split; [| reflexivity].
  intros name Hd Ha. unfold setHeader. cbn [headers].
  rewrite !lookup_insert_ne by congruence. reflexivity.
Qed.

(** X2. Two requests made one after the other take two successive
    readings of the clock, in any mode: the first carries the rendering
    of the reading n as its Date header, the second that of the reading
    n + 1, and the clock has been read exactly twice. *)
Theorem X2_successive_requests
    (baseURL apiKey : string) (sharedKey : option string)
    (config1 config2 : AxiosRequestConfig) (w w' : World) :
  exists (this : LicenseApiClient) (c1 c2 : AxiosRequestConfig),
    new_LicenseApiClient baseURL apiKey sharedKey w = (Ok this, w)
    /\ result (let* c1 := requestInterceptor this config1 in
               let* c2 := requestInterceptor this config2 in
               ret (c1, c2)) w' = Ok (c1, c2)
    /\ headers c1 !! "Date"%string = Some (Date.toUTCString (clock w' (reads w')))
    /\ headers c2 !! "Date"%string = Some (Date.toUTCString (clock w' (S (reads w'))))
    /\ reads (after (let* c1 := requestInterceptor this config1 in
                     let* c2 := requestInterceptor this config2 in
                     ret (c1, c2)) w') = S (S (reads w')).
Proof.
  destruct (interceptor_constructed baseURL apiKey sharedKey w) as (this & Hnew & Hrun).
  exists this. do 2 eexists. split; [exact Hnew |].
  unfold result, after, bind. rewrite Hrun. cbv zeta. rewrite Hrun. cbv zeta.
  unfold ret. cbn [fst snd reads clock].
  split; [reflexivity |]. split; [apply lookup_Date |].
  split; [apply lookup_Date | reflexivity].
Qed.

(** X3. In enhanced mode the Date header that is sent is, byte for byte,
    the date inside the string that was signed, and the signature in the
    Authorization header is the one computed over it with the shared
    key. *)
Theorem X3_date_header_is_signed_date
    (baseURL apiKey key : string) (config : AxiosRequestConfig) (w w' : World) :
  key <> EmptyString ->
  startsWith apiKey "test-" = false ->
  env w !! "NODE_ENV"%string <> Some "test"%string ->
  exists (this : LicenseApiClient) (config' : AxiosRequestConfig) (d sig : string),
    new_LicenseApiClient baseURL apiKey (Some key) w = (Ok this, w)
    /\ result (requestInterceptor this config) w' = Ok config'
    /\ headers config' !! "Date"%string = Some d
    /\ added (requestInterceptor this config) w'
       = [ ClockRead (clock w' (reads w'));
           HmacDigest key ("licenseSpring" +:+ nl +:+ "date: " +:+ d) sig ]
    /\ headers config' !! "Authorization"%string
       = Some (String.concat ","
                 [ attribute "algorithm" "hmac-sha256"; attribute "headers" "date";
                   attribute "signature" sig; attribute "apikey" apiKey ]).
Proof.
  intros Hk Hp He.
  assert (He' : testEnv w = false).
  { destruct (testEnv w) eqn:E; [| reflexivity]. apply testEnv_spec in E. contradiction. }
  destruct (interceptor_constructed baseURL apiKey (Some key) w) as (this & Hnew & Hrun).
  assert (Hm : mode this = EnhancedMode).
  { destruct (new_LicenseApiClient_run baseURL apiKey (Some key) w) as [c Hc].
    rewrite Hc in Hnew. injection Hnew as <-. unfold mode. client_fields.
    rewrite Hp, He'. destruct key; [now elim Hk | reflexivity]. }
  exists this. do 3 eexists. split; [exact Hnew |].
  unfold result, added, after. rewrite Hrun, Hm. cbn [fst snd trace hmac_of header_of interp].
  rewrite drop_length_app.
  split; [reflexivity |]. split; [apply lookup_Date |].
  split; [reflexivity |]. apply lookup_Authorization.
Qed.

Lemma X3_date_header_is_signed_date_witness :
  "test-shared-key"%string <> EmptyString
  /\ startsWith "prod-api-key" "test-" = false
  /\ env sample_world !! "NODE_ENV"%string <> Some "test"%string
  /\ exists (this : LicenseApiClient) (config' : AxiosRequestConfig) (d sig : string),
       new_LicenseApiClient "https://api.licensespring.com" "prod-api-key"
         (Some "test-shared-key"%string) sample_world = (Ok this, sample_world)
       /\ result (requestInterceptor this (mkConfig "/api/v4/check_license" ∅)) sample_world
          = Ok config'
       /\ headers config' !! "Date"%string = Some d
       /\ added (requestInterceptor this (mkConfig "/api/v4/check_license" ∅)) sample_world
          = [ ClockRead (clock sample_world (reads sample_world));
              HmacDigest "test-shared-key" ("licenseSpring" +:+ nl +:+ "date: " +:+ d) sig ]
       /\ headers config' !! "Authorization"%string
          = Some (String.concat ","
                    [ attribute "algorithm" "hmac-sha256"; attribute "headers" "date";
                      attribute "signature" sig; attribute "apikey" "prod-api-key" ]).
Proof.
  split; [discriminate |]. split; [reflexivity |]. split; [discriminate |].
  apply (X3_date_header_is_signed_date "https://api.licensespring.com" "prod-api-key"
           "test-shared-key" (mkConfig "/api/v4/check_license" ∅) sample_world sample_world).
  - discriminate.
  - reflexivity.
  - discriminate.
Defined.

Lemma concat_last_attribute (a b c d : string) :
  String.concat "," [a; b; c; d] = (a +:+ "," +:+ b +:+ "," +:+ c +:+ ",") +:+ d.
Proof. cbn [String.concat]. now rewrite ?append_assoc. Qed.

(** X4. In every mode the Authorization header of a constructed client
    ends with the attribute apikey of the primary key: the key is sent
    with every request, signed or not. *)
Theorem X4_key_always_sent
    (baseURL apiKey : string) (sharedKey : option string)
    (config : AxiosRequestConfig) (w w' : World) :
  exists (this : LicenseApiClient) (config' : AxiosRequestConfig) (before : string),
    new_LicenseApiClient baseURL apiKey sharedKey w = (Ok this, w)
    /\ result (requestInterceptor this config) w' = Ok config'
    /\ headers config' !! "Authorization"%string
       = Some (before +:+ "apikey=" +:+ dq +:+ apiKey +:+ dq).
Proof.
  destruct (interceptor_constructed baseURL apiKey sharedKey w) as (this & Hnew & Hrun).
  exists this.
  exists (setHeader "Authorization"
            (header_of (mode this) apiKey sharedKey (Date.toUTCString (clock w' (reads w'))))
            (setHeader "Date" (Date.toUTCString (clock w' (reads w'))) config)).
  destruct (mode this) eqn:Hm.
  - eexists. split; [exact Hnew |]. unfold result. rewrite Hrun, ?Hm. cbn [fst].
    split; [reflexivity |]. rewrite lookup_Authorization. f_equal.
    cbn [header_of]. unfold placeholder_header. apply concat_last_attribute.
  - eexists. split; [exact Hnew |]. unfold result. rewrite Hrun, ?Hm. cbn [fst].
    split; [reflexivity |]. rewrite lookup_Authorization. f_equal.
    cbn [header_of]. unfold signed_header. apply concat_last_attribute.
  - exists EmptyString. split; [exact Hnew |]. unfold result. rewrite Hrun, ?Hm. cbn [fst].
    split; [reflexivity |]. rewrite lookup_Authorization. reflexivity.
Qed.

(** X5. A request computes an HMAC only in enhanced mode, and then
    exactly one, keyed with the shared key of the client; in test mode,
    also when it is entered through NODE_ENV with a shared key present,
    and in limited mode no HMAC is computed. *)
Theorem X5_hmac_only_in_enhanced_mode
    (baseURL apiKey : string) (sharedKey : option string)
    (config : AxiosRequestConfig) (w w' : World) :
  exists this : LicenseApiClient,
    new_LicenseApiClient baseURL apiKey sharedKey w = (Ok this, w)
    /\ length (filter (fun e => is_hmac e) (added (requestInterceptor this config) w'))
       = (if mode this is EnhancedMode then 1 else 0)%nat
    /\ (forall key data sig : string,
          In (HmacDigest key data sig) (added (requestInterceptor this config) w') ->
          mode this = EnhancedMode /\ sharedKey = Some key /\ key <> EmptyString).
Proof.
  destruct (interceptor_constructed baseURL apiKey sharedKey w) as (this & Hnew & Hrun).
  exists this. split; [exact Hnew |].
  assert (Hs : mode this = EnhancedMode -> exists key, sharedKey = Some key /\ key <> EmptyString).
  { destruct (new_LicenseApiClient_run baseURL apiKey sharedKey w) as [c Hc].
    rewrite Hc in Hnew. injection Hnew as <-. unfold mode. client_fields.
    destruct (startsWith apiKey "test-" || testEnv w); [discriminate |].
    cbn [negb]. rewrite andb_true_r. destruct (truthy sharedKey) eqn:Ht; [| discriminate].
    intros _. now apply truthy_Some. }
  unfold added, after. rewrite Hrun. cbn [snd trace]. rewrite drop_length_app.
  destruct (mode this) eqn:Hm; cbn [hmac_of].
  - split; [reflexivity |]. intros key data sig [H | []]. discriminate H.
  - destruct (Hs eq_refl) as (key & -> & Hk). cbn [interp].
    split; [reflexivity |].
    intros key' data sig [H | [H | []]]; [discriminate H |].
    injection H as <- _ _. auto.
  - split; [reflexivity |]. intros key data sig [H | []]. discriminate H.
Qed.

(* --------------------------------------------------------------------- *)
(* The signing string as a sequence of lines                             *)
(* --------------------------------------------------------------------- *)

(* What follows the date in the signing string. *)
Lemma signingString_tail (apiKey date : string) (licenseKey hardwareId : option string) :
  signingString apiKey date licenseKey hardwareId
  = "licenseSpring" +:+ nl +:+ "date: " +:+ date
    +:+ (if truthy licenseKey && truthy hardwareId
         then nl +:+ interp licenseKey +:+ nl +:+ interp hardwareId +:+ nl +:+ apiKey
         else EmptyString).
Proof.
  unfold signingString. cbv zeta.
  destruct (truthy licenseKey && truthy hardwareId).
  - now rewrite ?append_assoc.
  - now rewrite append_nil_r.
Qed.

(* A line ends where the string ends or at the first line feed. *)
Lemma first_line_unique (a a' t t' : string) :
  one_line a -> one_line a' ->
  (t = EmptyString \/ exists x, t = nl +:+ x) ->
  (t' = EmptyString \/ exists x, t' = nl +:+ x) ->
  a +:+ t = a' +:+ t' ->
  a = a' /\ t = t'.
Proof.
  revert a'. induction a as [| c a IH]; intros a' Ha Ha' Ht Ht' H.
  - destruct a' as [| c' a'']; [split; [reflexivity | exact H] |].
    exfalso. cbn in H. destruct Ht as [-> | [x ->]]; [discriminate H |].
    injection H as <- _. apply Ha'. now left.
  - destruct a' as [| c' a''].
    + exfalso. cbn in H. destruct Ht' as [-> | [x ->]]; [discriminate H |].
      injection H as -> _. apply Ha. now left.
    + cbn in H. injection H as <- H.
      destruct (IH a'') as [-> ->]; auto.
      * intros Hin. apply Ha. now right.
      * intros Hin. apply Ha'. now right.
Qed.

(** X6. When the date and the identifiers hold no line feed, the signing
    string determines what was signed: two calls that sign the same
    string have the same date, both have the two identifiers or neither
    has, and if they have them the identifiers and the primary key are
    the same. *)
Theorem X6_signing_string_unambiguous
    (apiKey apiKey' date date' : string)
    (licenseKey licenseKey' hardwareId hardwareId' : option string) :
  one_line date -> one_line date' ->
  one_line (interp licenseKey) -> one_line (interp licenseKey') ->
  one_line (interp hardwareId) -> one_line (interp hardwareId') ->
  signingString apiKey date licenseKey hardwareId
  = signingString apiKey' date' licenseKey' hardwareId' ->
  date = date'
  /\ truthy licenseKey && truthy hardwareId = truthy licenseKey' && truthy hardwareId'
  /\ (truthy licenseKey && truthy hardwareId = true ->
      interp licenseKey = interp licenseKey'
      /\ interp hardwareId = interp hardwareId'
      /\ apiKey = apiKey').
Proof.
  intros Hd Hd' Hl Hl' Hh Hh' H.
  rewrite !signingString_tail in H.
  apply (String.app_inj "licenseSpring") in H.
  apply (String.app_inj nl) in H.
  apply (String.app_inj "date: ") in H.
  apply first_line_unique in H; auto.
  - destruct H as [-> H]. split; [reflexivity |].
    destruct (truthy licenseKey && truthy hardwareId),
             (truthy licenseKey' && truthy hardwareId'); try discriminate H.
    + split; [reflexivity |]. intros _.
      apply (String.app_inj nl) in H.
      apply first_line_unique in H; auto; [| right; eauto | right; eauto].
      destruct H as [-> H]. split; [reflexivity |].
      apply (String.app_inj nl) in H.
      apply first_line_unique in H; auto; [| right; eauto | right; eauto].
      destruct H as [-> H]. split; [reflexivity |].
      now apply (String.app_inj nl) in H.
    + split; [reflexivity | discriminate].
  - destruct (truthy licenseKey && truthy hardwareId); [right; eauto | left; reflexivity].
  - destruct (truthy licenseKey' && truthy hardwareId'); [right; eauto | left; reflexivity].
Qed.

(* With a line feed inside an identifier two different pairs are signed
   as the same string. *)
Example signing_string_collision :
  signingString "key" "Mon, 19 Oct 2020 15:42:27 GMT"
    (Some ("A" +:+ nl +:+ "B")) (Some "C"%string)
  = signingString "key" "Mon, 19 Oct 2020 15:42:27 GMT"
      (Some "A"%string) (Some ("B" +:+ nl +:+ "C")).
Proof. reflexivity. Qed.

Lemma X6_signing_string_unambiguous_witness :
  one_line "Mon, 19 Oct 2020 15:42:27 GMT"
  /\ one_line (interp (Some "TEST-LICENSE-KEY"%string))
  /\ one_line (interp (Some "test-hardware-id"%string))
  /\ "Mon, 19 Oct 2020 15:42:27 GMT"%string = "Mon, 19 Oct 2020 15:42:27 GMT"%string
  /\ truthy (Some "TEST-LICENSE-KEY"%string) && truthy (Some "test-hardware-id"%string)
     = truthy (Some "TEST-LICENSE-KEY"%string) && truthy (Some "test-hardware-id"%string)
  /\ (truthy (Some "TEST-LICENSE-KEY"%string) && truthy (Some "test-hardware-id"%string) = true ->
      interp (Some "TEST-LICENSE-KEY"%string) = interp (Some "TEST-LICENSE-KEY"%string)
      /\ interp (Some "test-hardware-id"%string) = interp (Some "test-hardware-id"%string)
      /\ "test-api-key"%string = "test-api-key"%string).
Proof.
  assert (H1 : one_line "Mon, 19 Oct 2020 15:42:27 GMT")
    by (unfold one_line; cbn; intuition discriminate).
  assert (H2 : one_line (interp (Some "TEST-LICENSE-KEY"%string)))
    by (unfold one_line; cbn; intuition discriminate).
  assert (H3 : one_line (interp (Some "test-hardware-id"%string)))
    by (unfold one_line; cbn; intuition discriminate).
  split; [exact H1 |]. split; [exact H2 |]. split; [exact H3 |].
  exact (X6_signing_string_unambiguous "test-api-key" "test-api-key"
           "Mon, 19 Oct 2020 15:42:27 GMT" "Mon, 19 Oct 2020 15:42:27 GMT"
           (Some "TEST-LICENSE-KEY"%string) (Some "TEST-LICENSE-KEY"%string)
           (Some "test-hardware-id"%string) (Some "test-hardware-id"%string)
           H1 H1 H2 H2 H3 H3 eq_refl).
Defined.

(* --------------------------------------------------------------------- *)
(* auth.ts: validation of the Management API key                         *)
(* --------------------------------------------------------------------- *)

(** X7. validateManagementApiAuth throws exactly when the key is missing
    (undefined or the empty string), with a message that starts with
    MANAGEMENT_API_KEY is required; with a key it returns, having written
    one warning to the console exactly when the key starts with test- or
    NODE_ENV is test, and nothing otherwise.  It reads no clock and
    computes no HMAC. *)
Theorem X7_validate_management_auth (apiKey : option string) (w : World) :
  let call := validateManagementApiAuth apiKey in
  (truthy apiKey = false ->
     result call w = Thrown "MANAGEMENT_API_KEY is required for Management API operations"
     /\ after call w = w)
  /\ (truthy apiKey = true ->
        result call w = Ok tt
        /\ added call w
           = if startsWith (interp apiKey) "test-" || testEnv w
             then [ConsoleWarn "⚠️  Running in test mode - API calls will fail but server will start"]
             else [])
  /\ startsWith "MANAGEMENT_API_KEY is required for Management API operations"
       "MANAGEMENT_API_KEY is required" = true
  /\ reads (after call w) = reads w
  /\ env (after call w) = env w.
Proof.
  intros call. subst call. unfold result, added, after.
  unfold validateManagementApiAuth, bind, getenv. cbv beta iota. fold (testEnv w).
  destruct apiKey as [[| c k] |]; cbn [truthy negb interp throw fst snd].
  - split; [intros _; split; [reflexivity | now destruct w] |].
    split; [discriminate |]. repeat split.
  - split; [discriminate |].
    destruct (startsWith (String c k) "test-" || testEnv w);
      cbn [console_warn emit ret fst snd trace reads env].
    + rewrite drop_length_app. repeat split.
    + rewrite drop_all. repeat split.
  - split; [intros _; split; [reflexivity | now destruct w] |].
    split; [discriminate |]. repeat split.
Qed.

(* --------------------------------------------------------------------- *)
(* http.ts: handleApiError                                               *)
(* --------------------------------------------------------------------- *)

Lemma prefix_split (p s : string) :
  String.prefix p s = true -> exists rest : string, s = p +:+ rest.
Proof.
  revert s. induction p as [| a p IH]; intros s H.
  - exists s. reflexivity.
  - destruct s as [| c s]; [discriminate H |].
    cbn in H. destruct (ascii_dec a c) as [-> | _]; [| discriminate H].
    destruct (IH s H) as [rest ->]. exists rest. reflexivity.
Qed.

(* The third word of the test is covered by the first. *)
Lemma includes_unauthorized_auth (s : string) :
  includes s "unauthorized" = true -> includes s "auth" = true.
Proof.
  induction s as [| c s IH].
  - discriminate.
  - rewrite includes_cons. intros H. apply orb_true_iff in H. destruct H as [H | H].
    + apply prefix_split in H. destruct H as [rest ->].
      do 2 apply includes_later. apply includes_here. reflexivity.
    + apply includes_later. auto.
Qed.

Lemma auth_test (m : string) :
  includes (toLowerCase m) "auth" || includes (toLowerCase m) "signature"
  || includes (toLowerCase m) "unauthorized"
  = looks_like_auth m.
Proof.
  unfold looks_like_auth.
  destruct (includes (toLowerCase m) "unauthorized") eqn:H.
  - rewrite (includes_unauthorized_auth _ H). reflexivity.
  - now rewrite orb_false_r.
Qed.

Lemma auth_status (status : Z) :
  (status =? 401) || (status =? 403) = true <-> status = 401 \/ status = 403.
Proof. rewrite orb_true_iff, !Z.eqb_eq. reflexivity. Qed.

(** X8. For a 401 or 403 response whose message (the first truthy one of
    the body's message, error and detail, or else the status text) is a
    string, handleApiError answers with the authentication guidance
    exactly when the message, in lower case, holds auth or signature, and
    with Access denied otherwise; the message itself is quoted as it was
    received. *)
Theorem X8_authentication_guidance
    (r : AxiosError.Response) (request : bool) (message : value) (m : string) :
  AxiosError.status r = 401 \/ AxiosError.status r = 403 ->
  or_else (first_truthy (AxiosError.data r)) (JStr (AxiosError.statusText r)) = JStr m ->
  handleApiError (AxiosError.mk (Some r) request message)
  = Ok (JStr (if looks_like_auth m
              then "Authentication failed: " +:+ m
                   +:+ ". Verify your LICENSE_API_KEY is correct. If your organization uses shared API settings, you may also need to provide LICENSE_SHARED_KEY for enhanced security."
              else "Access denied: " +:+ m)).
Proof.
  intros Hs Hm. apply auth_status in Hs.
  unfold handleApiError. cbn [AxiosError.response]. rewrite Hs.
  unfold first_truthy in Hm. rewrite Hm, auth_test.
  destruct (looks_like_auth m); [| reflexivity].
  do 2 f_equal. rewrite ?append_assoc. reflexivity.
Qed.

Lemma X8_authentication_guidance_witness :
  (AxiosError.status
     (AxiosError.mkResponse 401 "Unauthorized"
        (JObj [("detail"%string, JStr "Invalid SIGNATURE for request")])) = 401
   \/ AxiosError.status
        (AxiosError.mkResponse 401 "Unauthorized"
           (JObj [("detail"%string, JStr "Invalid SIGNATURE for request")])) = 403)
  /\ handleApiError
       (AxiosError.mk
          (Some (AxiosError.mkResponse 401 "Unauthorized"
                   (JObj [("detail"%string, JStr "Invalid SIGNATURE for request")])))
          true JUndefined)
     = Ok (JStr (if looks_like_auth "Invalid SIGNATURE for request"
                 then "Authentication failed: " +:+ "Invalid SIGNATURE for request"
                      +:+ ". Verify your LICENSE_API_KEY is correct. If your organization uses shared API settings, you may also need to provide LICENSE_SHARED_KEY for enhanced security."
                 else "Access denied: " +:+ "Invalid SIGNATURE for request")).
Proof.
  split; [left; reflexivity |].
  apply (X8_authentication_guidance
           (AxiosError.mkResponse 401 "Unauthorized"
              (JObj [("detail"%string, JStr "Invalid SIGNATURE for request")]))
           true JUndefined "Invalid SIGNATURE for request").
  - left; reflexivity.
  - reflexivity.
Defined.

Example guidance_is_case_insensitive :
  looks_like_auth "Invalid SIGNATURE for request" = true
  /\ looks_like_auth "UNAUTHORIZED" = true
  /\ looks_like_auth "License not found" = false.
Proof. repeat split. Qed.

(** X9. For an error as a rejected axios call hands it over (an object,
    not undefined or null, whose response, when there is one, has a string
    status text), handleApiError throws exactly on a 401 or 403 response
    in which the first truthy one of the body's message, error and detail
    is not a string (a number, true, an object or an array): the call of
    toLowerCase fails.  On every other error of that kind it returns. *)
Theorem X9_handleApiError_throws (error : AxiosError.t) :
  (exists e : string, handleApiError error = Thrown e)
  <-> exists r : AxiosError.Response,
        AxiosError.response error = Some r
        /\ (AxiosError.status r = 401 \/ AxiosError.status r = 403)
        /\ ToBoolean (first_truthy (AxiosError.data r)) = true
        /\ forall s : string, first_truthy (AxiosError.data r) <> JStr s.
Proof.
  destruct error as [[r |] request message]; unfold handleApiError;
    cbn [AxiosError.response].
  - fold (first_truthy (AxiosError.data r)).
    destruct ((AxiosError.status r =? 401) || (AxiosError.status r =? 403)) eqn:Hs.
    + apply auth_status in Hs. unfold or_else at 1.
      destruct (ToBoolean (first_truthy (AxiosError.data r))) eqn:Ht.
      * destruct (first_truthy (AxiosError.data r)) as [| | b | x | s | f | a] eqn:Hf.
        1-4, 6-7:
          (split; [ intros _; exists r; rewrite Hf;
                    split; [reflexivity |]; split; [exact Hs |]; split; [exact Ht |];
                    intros s0; discriminate
                  | intros _; eexists; reflexivity ]).
        split.
        -- intros [e He]. destruct (_ || _); discriminate He.
        -- intros (r' & Hr & _ & _ & Hn). injection Hr as <-. now elim (Hn s).
      * split.
        -- intros [e He]. destruct (_ || _); discriminate He.
        -- intros (r' & Hr & _ & Hn & _). injection Hr as <-. congruence.
    + split.
      * intros [e He]. exfalso.
        destruct (ToBoolean (AxiosError.data r) && typeof_object (AxiosError.data r));
          [| discriminate He].
        destruct (ToBoolean (prop (AxiosError.data r) "message")); [discriminate He |].
        destruct (ToBoolean (prop (AxiosError.data r) "error")); [discriminate He |].
        destruct (ToBoolean (prop (AxiosError.data r) "detail")); discriminate He.
      * intros (r' & Hr' & Hr & _). injection Hr' as <-. apply auth_status in Hr.
        congruence.
  - split.
    + intros [e He]. destruct request; discriminate He.
    + intros (r & Hr & _). discriminate Hr.
Qed.

(* 1.0 is 0x3FF0000000000000, -0 is the sign bit alone, and a quiet NaN is
   0x7FF8000000000000. *)
Example number_truthiness :
  ToBoolean (JNum 0x3FF0000000000000) = true
  /\ ToBoolean (JNum 0) = false
  /\ ToBoolean (JNum 0x8000000000000000) = false
  /\ ToBoolean (JNum 0x7FF8000000000000) = false
  /\ ToBoolean (JNum 0x7FF0000000000000) = true.
Proof. repeat split. Qed.

Example handleApiError_throws_on_object_message :
  handleApiError
    (AxiosError.mk
       (Some (AxiosError.mkResponse 403 "Forbidden"
                (JObj [("error"%string, JObj [("code"%string, JStr "forbidden")])])))
       true JUndefined)
  = Thrown "errorMessage.toLowerCase is not a function".
Proof. reflexivity. Qed.

Lemma prop_needs_object (data : value) (name : string) :
  ToBoolean data && typeof_object data = false -> prop data name = JUndefined.
Proof. destruct data; try reflexivity. discriminate. Qed.

(* The chain of tests on the body, as one choice. *)
Lemma body_message (data : value) (fallback : value) :
  (if ToBoolean data && typeof_object data then
     if ToBoolean (prop data "message") then Ok (prop data "message")
     else if ToBoolean (prop data "error") then Ok (prop data "error")
     else if ToBoolean (prop data "detail") then Ok (prop data "detail")
     else Ok fallback
   else Ok fallback)
  = Ok (or_else (first_truthy data) fallback).
Proof.
  unfold first_truthy, or_else.
  destruct (ToBoolean data && typeof_object data) eqn:Hd.
  - destruct (ToBoolean (prop data "message")) eqn:H1; cbv iota; rewrite ?H1;
      [reflexivity |].
    destruct (ToBoolean (prop data "error")) eqn:H2; cbv iota; rewrite ?H2;
      [reflexivity |].
    destruct (ToBoolean (prop data "detail")) eqn:H3; cbv iota; rewrite ?H3; reflexivity.
  - rewrite !(prop_needs_object data _ Hd). reflexivity.
Qed.

(** X10. For a response whose status is neither 401 nor 403,
    handleApiError returns the first truthy one of the body's message,
    error and detail, in that order, and otherwise the line HTTP, status,
    colon, status text; a body that is not an object with such a field (a
    plain text, an array, null) is never shown.  On these responses the
    function answers as its earlier revision did. *)
Theorem X10_body_message_precedence
    (r : AxiosError.Response) (request : bool) (message : value) :
  AxiosError.status r <> 401 -> AxiosError.status r <> 403 ->
  let line :=
    JStr ("HTTP " +:+ integer_string (AxiosError.status r) +:+ ": "
          +:+ AxiosError.statusText r) in
  let error := AxiosError.mk (Some r) request message in
  handleApiError error = Ok (or_else (first_truthy (AxiosError.data r)) line)
  /\ ((forall fields, AxiosError.data r <> JObj fields) -> handleApiError error = Ok line)
  /\ handleApiError error = EarlierHttp.handleApiError error.
Proof.
  intros H1 H3 line error.
  assert (Hs : (AxiosError.status r =? 401) || (AxiosError.status r =? 403) = false).
  { apply orb_false_iff. split; now apply Z.eqb_neq. }
  assert (He : EarlierHttp.handleApiError error
               = Ok (or_else (first_truthy (AxiosError.data r)) line)).
  { unfold EarlierHttp.handleApiError, error. cbn [AxiosError.response]. cbv zeta.
    apply body_message. }
  assert (Hc : handleApiError error = Ok (or_else (first_truthy (AxiosError.data r)) line)).
  { unfold handleApiError, error. cbn [AxiosError.response]. cbv zeta. rewrite Hs.
    apply body_message. }
  split; [exact Hc |]. split; [| now rewrite Hc, He].
  intros Hn. rewrite Hc. destruct (AxiosError.data r); try reflexivity.
  now elim (Hn fields).
Qed.

Lemma X10_body_message_precedence_witness :
  AxiosError.status
    (AxiosError.mkResponse 404 "Not Found"
       (JObj [("error"%string, JStr "license_not_found");
              ("detail"%string, JStr "No such license")])) <> 401
  /\ AxiosError.status
       (AxiosError.mkResponse 404 "Not Found"
          (JObj [("error"%string, JStr "license_not_found");
                 ("detail"%string, JStr "No such license")])) <> 403
  /\ handleApiError
       (AxiosError.mk
          (Some (AxiosError.mkResponse 404 "Not Found"
                   (JObj [("error"%string, JStr "license_not_found");
                          ("detail"%string, JStr "No such license")])))
          true JUndefined)
     = Ok (JStr "license_not_found").
Proof.
  split; [discriminate |]. split; [discriminate |].
  apply (X10_body_message_precedence
           (AxiosError.mkResponse 404 "Not Found"
              (JObj [("error"%string, JStr "license_not_found");
                     ("detail"%string, JStr "No such license")]))
           true JUndefined); discriminate.
Defined.

Example plain_text_body_is_not_shown :
  handleApiError
    (AxiosError.mk
       (Some (AxiosError.mkResponse 500 "Internal Server Error"
                (JStr "upstream timed out")))
       true JUndefined)
  = Ok (JStr "HTTP 500: Internal Server Error").
Proof. reflexivity. Qed.

(** X11. Whatever handleApiError returns is truthy: the text handed to
    the caller is never empty, undefined, null, false or 0. *)
Theorem X11_handleApiError_truthy (error : AxiosError.t) (v : value) :
  handleApiError error = Ok v -> ToBoolean v = true.
Proof.
  destruct error as [[r |] request message]; unfold handleApiError;
    cbn [AxiosError.response]; cbv zeta.
  - destruct ((AxiosError.status r =? 401) || (AxiosError.status r =? 403)).
    + destruct (or_else _ (JStr (AxiosError.statusText r))); try discriminate.
      destruct (_ || _); intros [= <-]; reflexivity.
    + rewrite body_message. intros [= <-]. unfold or_else.
      destruct (ToBoolean (first_truthy (AxiosError.data r))) eqn:H; [exact H | reflexivity].
  - destruct request.
    + intros [= <-]. reflexivity.
    + intros [= <-]. unfold or_else.
      destruct (ToBoolean message) eqn:H; [exact H | reflexivity].
Qed.

Lemma X11_handleApiError_truthy_witness :
  handleApiError (AxiosError.mk None false (JStr EmptyString))
  = Ok (JStr "Unknown error occurred while communicating with LicenseSpring API")
  /\ ToBoolean (JStr "Unknown error occurred while communicating with LicenseSpring API") = true.
Proof.
  split; [reflexivity |].
  apply (X11_handleApiError_truthy (AxiosError.mk None false (JStr EmptyString))).
  reflexivity.
Defined.

(* --------------------------------------------------------------------- *)
(* The start-up of the two servers                                       *)
(* --------------------------------------------------------------------- *)

Lemma validateLicenseApiAuth_run (key : string) (sharedKey : option string) (w : World) :
  key <> EmptyString ->
  validateLicenseApiAuth (Some key) sharedKey w
  = (Ok tt,
     mkWorld (env w) (clock w) (reads w)
       (trace w ++ announcement
                     (if startsWith key "test-" || testEnv w then TestMode
                      else if truthy sharedKey then EnhancedMode else LimitedMode))).
Proof.
  intros Hk. destruct key as [| a k]; [now elim Hk |].
  unfold validateLicenseApiAuth, bind, getenv. cbv beta iota. fold (testEnv w).
  destruct (startsWith (String a k) "test-" || testEnv w), (truthy sharedKey);
    cbn [orb andb negb]; unfold bind, console_warn, console_log, emit;
    cbn [fst snd env reads trace clock announcement];
    rewrite <- ?app_assoc; reflexivity.
Qed.

(** X12. The License API server exits with code 1 exactly when
    LICENSE_API_KEY is unset or empty; it then has written the
    configuration error with the message of the validation and has
    constructed no client.  With a key it goes on with a client for that
    key and the shared key of the environment, at LICENSE_API_URL or, when
    that is unset or empty, at https://api.licensespring.com; the mode the
    validation announced on the console is the mode of the client. *)
Theorem X12_license_server_startup (w : World) :
  let s := fst (license_api_server w) in
  let w' := snd (license_api_server w) in
  (truthy (env w !! "LICENSE_API_KEY"%string) = false ->
     process s = Exited 1
     /\ head (stderr s)
        = Some [ "❌ Configuration Error:"%string;
                 "LICENSE_API_KEY is required as the primary authentication method for License API operations"%string ]
     /\ w' = w)
  /\ (forall key : string,
        env w !! "LICENSE_API_KEY"%string = Some key -> key <> EmptyString ->
        exists this : LicenseApiClient,
          process s = Running this
          /\ stderr s = []
          /\ new_LicenseApiClient
               (env_or (env w !! "LICENSE_API_URL"%string) "https://api.licensespring.com")
               key (env w !! "LICENSE_SHARED_KEY"%string) w
             = (Ok this, w)
          /\ w' = mkWorld (env w) (clock w) (reads w)
                    (trace w ++ announcement (mode this))).
Proof.
  intros s w'. subst s w'. unfold license_api_server. cbv zeta.
  destruct (env w !! "LICENSE_API_KEY"%string) as [[| a k] |] eqn:Hkey.
  - (* empty *)
    split; [| intros key [= <-] Hk; now elim Hk].
    intros _. cbn. repeat split.
  - split; [discriminate |].
    intros key [= <-] Hk.
    rewrite validateLicenseApiAuth_run by exact Hk.
    eexists. cbn [fst snd process stderr].
    unfold new_LicenseApiClient, bind, getenv, ret. cbn [env fst snd process stderr].
    split; [reflexivity |]. split; [reflexivity |].
    split; [reflexivity |].
    unfold mode. client_fields. fold (testEnv w).
    destruct (startsWith (String a k) "test-" || testEnv w); [reflexivity |].
    cbn [negb]. rewrite andb_true_r. reflexivity.
  - (* undefined *)
    split; [| intros key [=]].
    intros _. cbn. repeat split.
Qed.

(** X13. The Management API server exits with code 1 exactly when
    MANAGEMENT_API_KEY is unset or empty, having written the configuration
    error with the message of the validation.  With a key it goes on with
    a client whose Authorization header is Api-Key, a space and that key,
    at MANAGEMENT_API_URL or, when that is unset or empty, at
    https://saas.licensespring.com. *)
Theorem X13_management_server_startup (w : World) :
  let s := fst (management_api_server w) in
  (truthy (env w !! "MANAGEMENT_API_KEY"%string) = false ->
     process s = Exited 1
     /\ head (stderr s)
        = Some [ "❌ Configuration Error:"%string;
                 "MANAGEMENT_API_KEY is required for Management API operations"%string ]
     /\ snd (management_api_server w) = w)
  /\ (forall key : string,
        env w !! "MANAGEMENT_API_KEY"%string = Some key -> key <> EmptyString ->
        exists apiClient : ManagementApiClient,
          process s = Running apiClient
          /\ stderr s = []
          /\ fst (mclient apiClient)
             = env_or (env w !! "MANAGEMENT_API_URL"%string) "https://saas.licensespring.com"
          /\ snd (mclient apiClient) !! "Authorization"%string = Some ("Api-Key " +:+ key)).
Proof.
  intros s. subst s. unfold management_api_server. cbv zeta.
  destruct (env w !! "MANAGEMENT_API_KEY"%string) as [[| a k] |] eqn:Hkey.
  - split; [| intros key [= <-] Hk; now elim Hk].
    intros _. unfold validateManagementApiAuth, bind, getenv. cbn.
    repeat split; try now destruct w.
  - split; [discriminate |].
    intros key [= <-] Hk.
    unfold validateManagementApiAuth, bind, getenv. cbv beta iota. fold (testEnv w).
    cbn [truthy negb interp].
    eexists.
    destruct (startsWith (String a k) "test-" || testEnv w);
      cbn [console_warn emit ret fst snd process stderr];
      (split; [reflexivity |]); (split; [reflexivity |]); (split; [reflexivity |]);
      unfold new_ManagementApiClient, generateManagementApiAuthHeader; cbn [mclient snd];
      now simplify_map_eq.
  - split; [| intros key [=]].
    intros _. unfold validateManagementApiAuth, bind, getenv. cbn.
    repeat split; try now destruct w.
Qed.

Example license_server_default_url :
  exists this : LicenseApiClient,
    process (fst (license_api_server
                    (mkWorld {[ "LICENSE_API_KEY"%string := "prod-api-key"%string;
                                "LICENSE_API_URL"%string := EmptyString ]}
                             (fun _ => 0) 0 [])))
    = Running this
    /\ fst (client this) = "https://api.licensespring.com"%string
    /\ mode this = LimitedMode.
Proof. eexists. vm_compute. repeat split. Qed.

(* --------------------------------------------------------------------- *)
(* The current client against the earlier one                            *)
(* --------------------------------------------------------------------- *)


